(** * Catapult Window Commander plugin: a shallow embedding

    The plugin of [catapult_window_commander.py] asks the "Window Commander"
    GNOME Shell extension for the open windows over D-Bus, offers them as
    launcher search results and forwards the chosen action to the extension.

    Python text is modelled as [string] (code points 0..255), Python integers
    as [Z], decoded JSON as the inductive type [json] (numbers are integers:
    JSON numbers with a fraction or an exponent are outside the model), and the
    effects of the code (bus calls, log records, the proxy attribute of the
    client) by a small state-and-exception monad.  [json.loads] and the bus are
    parameters of the development. *)

From Stdlib Require Import ZArith List String Ascii Bool Lia.
From Stdlib Require Import DecimalString DecimalZ.
Import ListNotations.

Local Open Scope string_scope.
Local Open Scope Z_scope.

Set Implicit Arguments.
Set Warnings "-register-all".

(** ** Python text primitives *)

Module PyStr.

Definition code (c : ascii) : N := N_of_ascii c.

(** [str.lower] on one code point below 256: A..Z and the Latin-1 capitals
    (0xC0..0xDE without the multiplication sign 0xD7) move up by 32. *)
Definition lower_char (c : ascii) : ascii :=
  let n := code c in
  if ((65 <=? n) && (n <=? 90)
      || (192 <=? n) && (n <=? 222) && negb (n =? 215))%N
  then ascii_of_N (n + 32) else c.

Fixpoint lower (s : string) : string :=
  match s with
  | EmptyString => EmptyString
  | String c r => String (lower_char c) (lower r)
  end.

(** White space as [str.strip] sees it below 256. *)
Definition is_space (c : ascii) : bool :=
  let n := code c in
  ((9 <=? n) && (n <=? 13) || (28 <=? n) && (n <=? 32)
   || (n =? 133) || (n =? 160))%N.

Fixpoint lstrip (s : string) : string :=
  match s with
  | EmptyString => EmptyString
  | String c r => if is_space c then lstrip r else s
  end.

Fixpoint rstrip (s : string) : string :=
  match s with
  | EmptyString => EmptyString
  | String c r =>
      match rstrip r with
      | EmptyString => if is_space c then EmptyString else String c EmptyString
      | r' => String c r'
      end
  end.

Definition strip (s : string) : string := rstrip (lstrip s).

(** [s.startswith(p)] *)
Definition startswith (s p : string) : bool := String.prefix p s.

(** [s[n:]] *)
Fixpoint drop (n : nat) (s : string) : string :=
  match n, s with
  | O, _ => s
  | S _, EmptyString => EmptyString
  | S k, String _ r => drop k r
  end.

(** [s.find(sub)]: the lowest index at which [sub] occurs, or -1. *)
Fixpoint find (s sub : string) : Z :=
  if String.prefix sub s then 0
  else match s with
       | EmptyString => -1
       | String _ r => let i := find r sub in if i =? -1 then -1 else i + 1
       end.

(** [s.split(sep)] for a separator of one character. *)
Fixpoint split (sep : ascii) (s : string) : list string :=
  match s with
  | EmptyString => [EmptyString]
  | String c r =>
      if Ascii.eqb c sep then EmptyString :: split sep r
      else match split sep r with
           | p :: ps => String c p :: ps
           | [] => [String c EmptyString]
           end
  end.

(** [str(n)] for an integer. *)
Definition of_int (n : Z) : string := NilZero.string_of_int (Z.to_int n).

(** Digit groups of an integer literal: single underscores are allowed
    between digits only. *)
Fixpoint underscores_ok (after_digit : bool) (s : string) : bool :=
  match s with
  | EmptyString => after_digit
  | String c r =>
      if Ascii.eqb c "_" then after_digit && underscores_ok false r
      else underscores_ok true r
  end.

Fixpoint drop_underscores (s : string) : string :=
  match s with
  | EmptyString => EmptyString
  | String c r =>
      if Ascii.eqb c "_" then drop_underscores r
      else String c (drop_underscores r)
  end.

Definition unsigned_of_string (s : string) : option Z :=
  if underscores_ok false s
  then option_map Z.of_uint (NilZero.uint_of_string (drop_underscores s))
  else None.

(** [int(s)] on text: white space around the literal is dropped, one sign
    may lead, the digits are decimal.  [None] stands for [ValueError].  The
    interpreter's limit on the number of digits is not modelled. *)
Definition to_int (s : string) : option Z :=
  match strip s with
  | String "-" r => option_map Z.opp (unsigned_of_string r)
  | String "+" r => unsigned_of_string r
  | r => unsigned_of_string r
  end.

End PyStr.

(** ** Decoded JSON and the Python operations applied to it *)

(** What [json.loads] returns: [None], [bool], [int], [str], [list], [dict].
    A dict is kept as its list of entries, one per key. *)
Inductive json : Type :=
| JNull
| JBool (b : bool)
| JInt (n : Z)
| JStr (s : string)
| JArr (items : list json)
| JObj (entries : list (string * json)).

(** The exceptions the operations of the module can raise.  [GLib.Error] and
    [json.JSONDecodeError] never escape: they are caught where they occur. *)
Inductive exn : Type :=
| TypeError
| AttributeError
| OverflowError
| ValueError
| IndexError.

Inductive outcome (A : Type) : Type :=
| Ret (a : A)
| Raise (e : exn).
Arguments Ret {A} a.
Arguments Raise {A} e.

Module Py.

(** Truth value of an object, as [not x] and [if x] test it. *)
Definition truthy (v : json) : bool :=
  match v with
  | JNull => false
  | JBool b => b
  | JInt n => negb (n =? 0)
  | JStr s => negb (s =? EmptyString)%string
  | JArr l => match l with [] => false | _ => true end
  | JObj kv => match kv with [] => false | _ => true end
  end.

Fixpoint lookup (k : string) (kv : list (string * json)) : option json :=
  match kv with
  | [] => None
  | (k', v) :: r => if (k' =? k)%string then Some v else lookup k r
  end.

(** [win.get(key, default)]: only a dict has the method. *)
Definition get (win : json) (key : string) (default : json) : outcome json :=
  match win with
  | JObj kv => Ret (match lookup key kv with Some v => v | None => default end)
  | _ => Raise AttributeError
  end.

Fixpoint chars (s : string) : list json :=
  match s with
  | EmptyString => []
  | String c r => JStr (String c EmptyString) :: chars r
  end.

(** [for win in v]: a list gives its items, a dict its keys, a text its
    characters; the other objects are not iterable. *)
Definition iter (v : json) : outcome (list json) :=
  match v with
  | JArr l => Ret l
  | JObj kv => Ret (map (fun e => JStr (fst e)) kv)
  | JStr s => Ret (chars s)
  | _ => Raise TypeError
  end.

(** The receiver of [.lower()] has to be a [str]. *)
Definition as_str (v : json) : outcome string :=
  match v with
  | JStr s => Ret s
  | _ => Raise AttributeError
  end.

(** [v > 0]: defined on numbers ([bool] is a subclass of [int]). *)
Definition gt0 (v : json) : outcome bool :=
  match v with
  | JInt n => Ret (0 <? n)
  | JBool b => Ret b
  | _ => Raise TypeError
  end.

End Py.

(** ** The D-Bus side *)

Definition DBUS_DESTINATION : string := "org.gnome.Shell".
Definition DBUS_INTERFACE_NAME : string :=
  "org.gnome.Shell.Extensions.WindowCommander".
Definition DBUS_OBJECT_PATH : string :=
  "/org/gnome/Shell/Extensions/WindowCommander".

(** The two kinds of [GLib.Variant] the module builds: ["u"] and ["b"]. *)
Inductive variant : Type :=
| VU32 (n : Z)
| VBool (b : bool).

Definition uint32_max : Z := 4294967295.

(** [GLib.Variant("u", n)] for a Python integer: the value has to fit an
    unsigned 32-bit word, otherwise the constructor raises [OverflowError]. *)
Definition variant_u_int (n : Z) : outcome variant :=
  if (0 <=? n) && (n <=? uint32_max) then Ret (VU32 n) else Raise OverflowError.

(** [GLib.Variant("u", v)] for a decoded JSON value: numbers only. *)
Definition variant_u (v : json) : outcome variant :=
  match v with
  | JInt n => variant_u_int n
  | JBool b => Ret (VU32 (if b then 1 else 0))
  | _ => Raise TypeError
  end.

(** A synchronous method call: the full method name and the parameter tuple. *)
Record call : Type := Call { method : string; params : list variant }.

(** What a GLib call gives back: a value, or a [GLib.Error] with its text. *)
Inductive glib (A : Type) : Type :=
| GOk (a : A)
| GError (msg : string).
Arguments GOk {A} a.
Arguments GError {A} msg.

(** The reply of [call_sync] is a tuple variant; the methods of the interface
    return nothing or one JSON text, so a reply is the list of its children. *)
Definition reply : Type := glib (list string).

Record DBusProxy : Type := Proxy {
  proxy_name : string;
  proxy_path : string;
  proxy_interface : string
}.

Inductive level : Type := INFO | WARNING | ERROR.

(** One constructor per logging statement of the module, with the values
    that its message interpolates. *)
Inductive log_record : Type :=
| LogConnected                                  (* info, __init__ *)
| LogConnectFailed (e : string)                 (* error, __init__ *)
| LogNoProxy                                    (* warning, _call_method *)
| LogCallFailed (method_name : string) (e : string) (* error, _call_method *)
| LogListJson                                   (* error, List decode *)
| LogDetailsJson (win_id : json)                (* error, GetDetails decode *)
| LogUnknownAction (action : string)            (* warning, execute_action *)
| LogParseId (id : string) (e : exn).           (* error, launch *)

Definition level_of (r : log_record) : level :=
  match r with
  | LogConnected => INFO
  | LogNoProxy | LogUnknownAction _ => WARNING
  | _ => ERROR
  end.

(** The state the code acts on: the [_proxy] attribute of the client, the
    calls made on the bus so far with their replies, and the log. *)
Record state : Type := State {
  _proxy : option DBusProxy;
  calls : list (call * reply);
  log : list log_record
}.

Definition M (A : Type) : Type := state -> outcome A * state.

Definition ret {A} (a : A) : M A := fun s => (Ret a, s).
Definition raise {A} (e : exn) : M A := fun s => (Raise e, s).
Definition bind {A B} (m : M A) (k : A -> M B) : M B :=
  fun s => match m s with
           | (Ret a, s') => k a s'
           | (Raise e, s') => (Raise e, s')
           end.
Definition lift {A} (o : outcome A) : M A := fun s => (o, s).
Definition logger (r : log_record) : M unit :=
  fun s => (Ret tt, State (_proxy s) (calls s) (log s ++ [r])).

Notation "x <- m ;; k" := (bind m (fun x => k))
  (at level 61, m at next level, right associativity).
Notation "m ;;; k" := (bind m (fun _ => k))
  (at level 61, right associativity).

(** [try: m except (classes): h] *)
Definition try_except {A} (m : M A) (caught : exn -> bool) (h : exn -> M A)
  : M A :=
  fun s => match m s with
           | (Raise e, s') => if caught e then h e s' else (Raise e, s')
           | r => r
           end.

(** ** Search results and generators *)

Module SearchResult.
(** The keyword arguments of [catapult.api.SearchResult] ([plugin] is the
    plugin object itself and is left out). *)
Record t : Type := Make {
  id : string;
  title : string;
  description : string;
  icon : string;
  score : Z;
  fuzzy : bool;
  offset : Z
}.
End SearchResult.

(** A generator run to its end: the results it yielded, in order, and how it
    stopped (a plain return, or an exception after the last result). *)
Definition gen (A : Type) : Type := (list SearchResult.t * outcome A)%type.

Definition gen_ret {A} (a : A) : gen A := ([], Ret a).
Definition yield (r : SearchResult.t) : gen unit := ([r], Ret tt).
Definition gen_lift {A} (o : outcome A) : gen A := ([], o).
Definition gen_bind {A B} (g : gen A) (k : A -> gen B) : gen B :=
  match g with
  | (rs, Ret a) => let (rs', o) := k a in ((rs ++ rs')%list, o)
  | (rs, Raise e) => (rs, Raise e)
  end.

Notation "x <~ g ;; k" := (gen_bind g (fun x => k))
  (at level 61, g at next level, right associativity).
Notation "g ~;; k" := (gen_bind g (fun _ => k))
  (at level 61, right associativity).

(** ** The module *)

Section Plugin.

(** [json.loads]; [None] stands for [json.JSONDecodeError]. *)
Variable json_loads : string -> option json.

(** The extension behind the bus: its reply to a call may depend on the
    calls it has answered before. *)
Variable bus : list (call * reply) -> call -> reply.

(** [Gio.DBusProxy.new_for_bus_sync] on the session bus. *)
Variable new_for_bus_sync : string -> string -> string -> glib DBusProxy.

(** [repr] of a list or a dict, needed only by [format] below. *)
Variable repr_container : json -> string.

(** The text an f-string puts in place of [{v}]. *)
Definition format (v : json) : string :=
  match v with
  | JNull => "None"
  | JBool true => "True"
  | JBool false => "False"
  | JInt n => PyStr.of_int n
  | JStr s => s
  | _ => repr_container v
  end.

(** *** class WindowCommanderDBus *)

Definition set_proxy (p : option DBusProxy) : M unit :=
  fun s => (Ret tt, State p (calls s) (log s)).

Definition get_proxy : M (option DBusProxy) :=
  fun s => (Ret (_proxy s), s).

(** [WindowCommanderDBus.__init__] *)
Definition WindowCommanderDBus__init__ : M unit :=
  set_proxy None ;;;
  match new_for_bus_sync DBUS_DESTINATION DBUS_OBJECT_PATH
                         DBUS_INTERFACE_NAME with
  | GOk p => set_proxy (Some p) ;;; logger LogConnected
  | GError e => logger (LogConnectFailed e)
  end.

(** [self._proxy.call_sync(full_method, params, ...)]: the call goes out on
    the bus and is recorded with its reply. *)
Definition call_sync (c : call) : M reply :=
  fun s => let r := bus (calls s) c in
           (Ret r, State (_proxy s) (calls s ++ [(c, r)]) (log s)).

(** [_call_method]: the first child of a non-empty reply tuple, or [None]. *)
Definition _call_method (method_name : string) (params : list variant)
  : M (option string) :=
  p <- get_proxy ;;
  match p with
  | None => logger LogNoProxy ;;; ret None
  | Some _ =>
      let full_method := DBUS_INTERFACE_NAME ++ "." ++ method_name in
      r <- call_sync (Call full_method params) ;;
      match r with
      | GOk (first :: _) => ret (Some first)
      | GOk [] => ret None
      | GError e => logger (LogCallFailed method_name e) ;;; ret None
      end
  end.

(** Truth value of what [_call_method] returned. *)
Definition nonempty (r : option string) : option string :=
  match r with
  | Some EmptyString => None
  | _ => r
  end.

(** One turn of the loop of step 2. *)
Definition details_step (win : json) (detailed_windows : list json)
  : M (list json) :=
  win_id <- lift (Py.get win "id" JNull) ;;
  if negb (Py.truthy win_id) then ret detailed_windows
  else
    u <- lift (variant_u win_id) ;;
    details_json <- _call_method "GetDetails" [u] ;;
    match nonempty details_json with
    | Some text =>
        match json_loads text with
        | Some details => ret (detailed_windows ++ [details])%list
        | None => logger (LogDetailsJson win_id) ;;; ret detailed_windows
        end
    | None => ret detailed_windows
    end.

Fixpoint details_loop (basic_windows : list json)
                      (detailed_windows : list json) : M (list json) :=
  match basic_windows with
  | [] => ret detailed_windows
  | win :: rest =>
      detailed_windows' <- details_step win detailed_windows ;;
      details_loop rest detailed_windows'
  end.

(** [get_all_windows_with_details] *)
Definition get_all_windows_with_details : M (option (list json)) :=
  list_json <- _call_method "List" [] ;;
  match nonempty list_json with
  | None => ret None
  | Some text =>
      match json_loads text with
      | None => logger LogListJson ;;; ret None
      | Some basic_windows =>
          wins <- lift (Py.iter basic_windows) ;;
          detailed_windows <- details_loop wins [] ;;
          ret (Some detailed_windows)
      end
  end.

(** The table of [execute_action].  The dict literal is evaluated before
    the lookup, so [GLib.Variant("u", win_id)] is built whatever the action
    is. *)
Definition action_map (win_id : Z)
  : outcome (list (string * (string * list variant))) :=
  match variant_u_int win_id with
  | Raise e => Raise e
  | Ret u =>
      Ret [ ("activate", ("Activate", [u]));
            ("close", ("Close", [u; VBool false]));
            ("maximize", ("Maximize", [u]));
            ("unmaximize", ("Unmaximize", [u]));
            ("minimize", ("Minimize", [u])) ]
  end.

Fixpoint assoc {V} (k : string) (l : list (string * V)) : option V :=
  match l with
  | [] => None
  | (k', v) :: r => if (k' =? k)%string then Some v else assoc k r
  end.

(** [execute_action] *)
Definition execute_action (action : string) (win_id : Z) : M unit :=
  table <- lift (action_map win_id) ;;
  match assoc action table with
  | Some (method_name, params) =>
      _call_method method_name params ;;; ret tt
  | None => logger (LogUnknownAction action)
  end.

(** *** class WindowCommander *)

Definition keywords : list string := ["w"; "win"; "window"].

(** [WindowCommander.__init__] creates the D-Bus client. *)
Definition WindowCommander__init__ : M unit := WindowCommanderDBus__init__.

(** The first loop of [search]: the trigger word, or the empty text. *)
Fixpoint find_trigger (kws : list string) (query : string) : string :=
  match kws with
  | [] => EmptyString
  | keyword :: rest =>
      if PyStr.startswith (PyStr.lower query) (keyword ++ " ")
      then keyword ++ " "
      else find_trigger rest query
  end.

Definition error_result : SearchResult.t :=
  SearchResult.Make "error:no-connection"
    "Window Commander Not Found or Failed"
    "Please ensure the GNOME extension is enabled."
    "dialog-warning" 100 false 0.

(** The body of the loop over the fetched windows. *)
Definition window_results (search_term : string) (win : json) : gen unit :=
  title_obj <~ gen_lift (Py.get win "title" (JStr "Untitled Window")) ;;
  class_obj <~ gen_lift (Py.get win "wm_class" (JStr "unknown")) ;;
  title <~ gen_lift (Py.as_str title_obj) ;;
  wm_class <~ gen_lift (Py.as_str class_obj) ;;
  let title_lower := PyStr.lower title in
  let class_lower := PyStr.lower wm_class in
  let offset := PyStr.find title_lower search_term in
  let offset := if offset =? -1 then PyStr.find class_lower search_term
                else offset in
  if offset =? -1 then gen_ret tt
  else
    win_id <~ gen_lift (Py.get win "id" JNull) ;;
    if negb (Py.truthy win_id) then gen_ret tt
    else
      yield (SearchResult.Make ("activate:" ++ format win_id)
               title ("Activate | Class: " ++ wm_class)
               wm_class 100 false offset) ~;;
      yield (SearchResult.Make ("close:" ++ format win_id)
               ("Close: " ++ title) ("Close Window | Class: " ++ wm_class)
               "window-close" 90 false offset) ~;;
      maximized <~ gen_lift (Py.get win "maximized" (JInt 0)) ;;
      is_max <~ gen_lift (Py.gt0 maximized) ;;
      let '(action_id, action_name, icon_name) :=
        if is_max : bool then ("unmaximize", "Unmaximize", "view-restore")
        else ("maximize", "Maximize", "view-fullscreen") in
      yield (SearchResult.Make (action_id ++ ":" ++ format win_id)
               (action_name ++ ": " ++ title)
               (action_name ++ " Window | Class: " ++ wm_class)
               icon_name 80 false offset).

Fixpoint search_loop (search_term : string) (windows : list json)
  : gen unit :=
  match windows with
  | [] => gen_ret tt
  | win :: rest =>
      window_results search_term win ~;; search_loop search_term rest
  end.

(** [search], consumed to its end: the state it leaves, the results it
    yielded and how it stopped. *)
Definition search (query : string) : state -> gen unit * state :=
  fun s =>
    let trigger_word := find_trigger keywords query in
    if (trigger_word =? EmptyString)%string then (gen_ret tt, s)
    else
      let search_term :=
        PyStr.lower
          (PyStr.strip (PyStr.drop (String.length trigger_word) query)) in
      match get_all_windows_with_details s with
      | (Raise e, s') => (gen_lift (Raise e), s')
      | (Ret None, s') => (yield error_result, s')
      | (Ret (Some windows), s') => (search_loop search_term windows, s')
      end.

Definition caught_by_launch (e : exn) : bool :=
  match e with
  | ValueError | IndexError => true
  | _ => false
  end.

(** [launch]; [window] is not used by the code. *)
Definition launch {W : Type} (window : W) (id : string) : M unit :=
  if PyStr.startswith id "error:" then ret tt
  else
    try_except
      (match PyStr.split ":" id with
       | [action; win_id_str] =>
           match PyStr.to_int win_id_str with
           | Some win_id => execute_action action win_id
           | None => raise ValueError
           end
       | _ => raise ValueError
       end)
      caught_by_launch
      (fun e => logger (LogParseId id e)).

End Plugin.

Arguments launch bus {W} window id _.

(** ** Vocabulary of the specification *)

(** The seven remote call names of the interface. *)
Definition remote_methods : list string :=
  ["List"; "GetDetails"; "Activate"; "Close"; "Maximize"; "Unmaximize";
   "Minimize"].

Definition full_name (method_name : string) : string :=
  DBUS_INTERFACE_NAME ++ "." ++ method_name.
Arguments full_name : simpl never.

(** The simple action commands as the purpose statement lists them. *)
Definition simple_commands : list string :=
  ["activate"; "close"; "maximize"; "minimize"].

(** The action commands [execute_action] has an entry for. *)
Definition forwarded_actions : list string :=
  ["activate"; "close"; "maximize"; "unmaximize"; "minimize"].

(** The actions [search] offers. *)
Definition offered_actions : list string :=
  ["activate"; "close"; "maximize"; "unmaximize"].

(** The remote call an action command stands for. *)
Definition remote_call_of (action : string) (win_id : Z) : option call :=
  if (action =? "activate")%string then
    Some (Call (full_name "Activate") [VU32 win_id])
  else if (action =? "close")%string then
    Some (Call (full_name "Close") [VU32 win_id; VBool false])
  else if (action =? "maximize")%string then
    Some (Call (full_name "Maximize") [VU32 win_id])
  else if (action =? "unmaximize")%string then
    Some (Call (full_name "Unmaximize") [VU32 win_id])
  else if (action =? "minimize")%string then
    Some (Call (full_name "Minimize") [VU32 win_id])
  else None.

(** A query is triggered when its lower-case form starts with a keyword and
    a space. *)
Definition triggered (query : string) : bool :=
  existsb (PyStr.startswith (PyStr.lower query)) ["w "; "win "; "window "].

(** A result id of the form [action:integer], read as [launch] reads it. *)
Definition parse_id (id : string) : option (string * Z) :=
  match PyStr.split ":" id with
  | [action; win_id_str] => option_map (pair action) (PyStr.to_int win_id_str)
  | _ => None
  end.

(** An entry of the List reply as the extension sends it: a JSON object
    whose id, when it is truthy, is a number that fits the ["u"] type. *)
Definition listed_window (win : json) : bool :=
  match win with
  | JObj kv =>
      match Py.lookup "id" kv with
      | None => true
      | Some v =>
          negb (Py.truthy v)
          || match variant_u v with Ret _ => true | Raise _ => false end
      end
  | _ => false
  end.

(** The GetDetails calls a List reply asks for: one per entry with a truthy
    id, in the order of the entries. *)
Definition details_call_of (win : json) : list call :=
  match win with
  | JObj kv =>
      match Py.lookup "id" kv with
      | Some v =>
          if Py.truthy v then
            match variant_u v with
            | Ret u => [Call (full_name "GetDetails") [u]]
            | Raise _ => []
            end
          else []
      | None => []
      end
  | _ => []
  end.

Definition requested (wins : list json) : list call :=
  flat_map details_call_of wins.

(** The JSON text a reply carries, if it carries a non-empty one. *)
Definition reply_text (r : reply) : option string :=
  match r with
  | GOk (EmptyString :: _) => None
  | GOk (t :: _) => Some t
  | _ => None
  end.

(** The details a GetDetails reply contributes: the decoded object, or
    nothing when the reply is absent, empty or not valid JSON. *)
Definition decoded (loads : string -> option json) (r : reply) : list json :=
  match reply_text r with
  | Some t => match loads t with Some d => [d] | None => [] end
  | None => []
  end.

(** The calls [cs] made one after the other on a bus with history
    [history], each with the reply the bus gives to it. *)
Fixpoint answers (bus : list (call * reply) -> call -> reply)
         (history : list (call * reply)) (cs : list call)
  : list (call * reply) :=
  match cs with
  | [] => []
  | c :: rest =>
      let r := bus history c in
      (c, r) :: answers bus (history ++ [(c, r)]) rest
  end.

Definition list_call : call := Call (full_name "List") [].

(** The entry points the launcher uses: creating the plugin, a search that
    is consumed to its end, and the launch of a result id. *)
Inductive entry : Type :=
| Init
| Search (query : string)
| Launch (id : string).

Definition run_entry (loads : string -> option json)
           (bus : list (call * reply) -> call -> reply)
           (connect : string -> string -> string -> glib DBusProxy)
           (repr : json -> string) (s : state) (e : entry) : state :=
  match e with
  | Init => snd (WindowCommander__init__ connect s)
  | Search query => snd (search loads bus repr query s)
  | Launch id => snd (launch bus tt id s)
  end.

Definition session loads bus connect repr (es : list entry) (s : state)
  : state :=
  fold_left (run_entry loads bus connect repr) es s.

Definition methods_called (s : state) : list string :=
  map (fun cr => method (fst cr)) (calls s).

(** [sub] occurs in [s] as a substring. *)
Definition occurs (sub s : string) : Prop :=
  exists pre post, s = pre ++ sub ++ post.


(** What is left of a query after its trigger word, white space removed. *)
Definition remaining_term (query : string) : string :=
  PyStr.strip (PyStr.drop (String.length (find_trigger keywords query)) query).

(** A window as GetDetails describes it: a JSON object whose title and
    wm_class, when present, are texts and whose maximized field, when
    present, is a number. *)
Definition window_shape (win : json) : bool :=
  match win with
  | JObj kv =>
      match Py.lookup "title" kv with
      | None | Some (JStr _) => true
      | _ => false
      end
      && match Py.lookup "wm_class" kv with
         | None | Some (JStr _) => true
         | _ => false
         end
      && match Py.lookup "maximized" kv with
         | None | Some (JInt _) | Some (JBool _) => true
         | _ => false
         end
  | _ => false
  end.

(** The fields of a window as [search] reads them, defaults included. *)
Definition field_of (win : json) (key : string) (default : json) : json :=
  match win with
  | JObj kv => match Py.lookup key kv with Some v => v | None => default end
  | _ => default
  end.

Definition text_of (v : json) : string :=
  match v with JStr t => t | _ => EmptyString end.

Definition title_of (win : json) : string :=
  text_of (field_of win "title" (JStr "Untitled Window")).

Definition class_of (win : json) : string :=
  text_of (field_of win "wm_class" (JStr "unknown")).

Definition id_of (win : json) : json := field_of win "id" JNull.

Definition is_maximized (win : json) : bool :=
  match field_of win "maximized" (JInt 0) with
  | JInt n => 0 <? n
  | JBool b => b
  | _ => false
  end.

(** The three results of a window, for the offset of the match. *)
Definition three_results (repr : json -> string) (win : json) (offset : Z)
  : list SearchResult.t :=
  let win_id := format repr (id_of win) in
  let title := title_of win in
  let wm_class := class_of win in
  [ SearchResult.Make ("activate:" ++ win_id) title
      ("Activate | Class: " ++ wm_class) wm_class 100 false offset;
    SearchResult.Make ("close:" ++ win_id) ("Close: " ++ title)
      ("Close Window | Class: " ++ wm_class) "window-close" 90 false offset;
    if is_maximized win then
      SearchResult.Make ("unmaximize:" ++ win_id) ("Unmaximize: " ++ title)
        ("Unmaximize Window | Class: " ++ wm_class) "view-restore"
        80 false offset
    else
      SearchResult.Make ("maximize:" ++ win_id) ("Maximize: " ++ title)
        ("Maximize Window | Class: " ++ wm_class) "view-fullscreen"
        80 false offset ].

(** Where the search term is found in a window: in the title first, then in
    the class; -1 when it is in neither. *)
Definition window_offset (search_term : string) (win : json) : Z :=
  let offset := PyStr.find (PyStr.lower (title_of win)) search_term in
  if offset =? -1 then PyStr.find (PyStr.lower (class_of win)) search_term
  else offset.

Definition expected_results (repr : json -> string) (search_term : string)
           (win : json) : list SearchResult.t :=
  if (window_offset search_term win =? -1) || negb (Py.truthy (id_of win))
  then [] else three_results repr win (window_offset search_term win).

(** Texts made of decimal digits only. *)
Definition is_digit (c : ascii) : bool :=
  ((48 <=? PyStr.code c) && (PyStr.code c <=? 57))%N.

Fixpoint all_digits (s : string) : bool :=
  match s with
  | EmptyString => true
  | String c r => is_digit c && all_digits r
  end.

(** A recorded call names one of the seven remote methods. *)
Definition known_call (cr : call * reply) : Prop :=
  exists m, In m remote_methods /\ method (fst cr) = full_name m.

(** From [s] to [s']: the proxy is the same and the calls made in between
    all name one of the seven remote methods. *)
Definition extends_known (s s' : state) : Prop :=
  _proxy s' = _proxy s /\
  exists new, calls s' = (calls s ++ new)%list /\ Forall known_call new.

(** A computation keeps the invariant when every run of it does. *)
Definition keeps {A} (m : M A) : Prop :=
  forall s, extends_known s (snd (m s)).

(** The calls made from [s] to [s'] all name a remote method. *)
Definition calls_known (s s' : state) : Prop :=
  exists new, calls s' = (calls s ++ new)%list /\ Forall known_call new.

(** The calls a fetch can make: List without parameters, and GetDetails
    with one window id that fits the ["u"] type. *)
Definition details_call (c : call) : Prop :=
  exists n, 0 <= n <= uint32_max /\ c = Call (full_name "GetDetails") [VU32 n].

Definition fetch_call (c : call) : Prop := c = list_call \/ details_call c.

(** The calls the module can put on the bus at all: those of a fetch, and
    the call of an action command for a window id that fits the ["u"]
    type. *)
Definition wire_call (c : call) : Prop :=
  fetch_call c \/
  exists action n,
    0 <= n <= uint32_max /\ remote_call_of action n = Some c.

(** From [s] to [s'] only calls that satisfy [P] were made. *)
Definition extends_by (P : call -> Prop) (s s' : state) : Prop :=
  exists new,
    calls s' = (calls s ++ new)%list /\ Forall (fun cr => P (fst cr)) new.

Definition makes_only (P : call -> Prop) {A} (m : M A) : Prop :=
  forall s, extends_by P s (snd (m s)).

(** The call that launching [id] puts on the bus from state [s], if any:
    the id must not be an error id, it must read as action:integer with an
    integer that fits the ["u"] type and an action of the table, and the
    proxy must be there. *)
Definition launch_calls (s : state) (id : string) : list call :=
  if PyStr.startswith id "error:" then []
  else
    match parse_id id, _proxy s with
    | Some (action, win_id), Some _ =>
        if (0 <=? win_id) && (win_id <=? uint32_max) then
          match remote_call_of action win_id with
          | Some c => [c]
          | None => []
          end
        else []
    | _, _ => []
    end.

(** A window whose title and wm_class, when present, are texts. *)
Definition text_fields (win : json) : bool :=
  match win with
  | JObj kv =>
      match Py.lookup "title" kv with
      | None | Some (JStr _) => true
      | _ => false
      end
      && match Py.lookup "wm_class" kv with
         | None | Some (JStr _) => true
         | _ => false
         end
  | _ => false
  end.

(** The objects that can be compared with 0. *)
Definition numeric (v : json) : bool :=
  match v with
  | JInt _ | JBool _ => true
  | _ => false
  end.

(** [sub] occurs in [s] at index [i], and nowhere before. *)
Definition first_at (sub s : string) (i : Z) : Prop :=
  exists pre post,
    s = pre ++ sub ++ post /\
    i = Z.of_nat (String.length pre) /\
    forall pre' post',
      s = pre' ++ sub ++ post' ->
      (String.length pre <= String.length pre')%nat.

(** The state with one more log record, and with one more call. *)
Definition logged (s : state) (r : log_record) : state :=
  State (_proxy s) (calls s) (log s ++ [r]).

Definition called (s : state) (c : call) (r : reply) : state :=
  State (_proxy s) (calls s ++ [(c, r)]) (log s).

(** ** A sample session

    A small extension behind the bus, used to run the definitions: four
    windows are listed (one with id 0), the details of window 9 come back
    as broken JSON, and [loads] decodes the texts this extension sends the
    way [json.loads] does. *)

Module Sample.

Definition dq : string := String "034" EmptyString.
Definition key (k : string) : string := dq ++ k ++ dq ++ ":".
Definition text (v : string) : string := dq ++ v ++ dq.

Definition list_text : string :=
  "[{" ++ key "id" ++ "7},{" ++ key "id" ++ "0},{" ++ key "id" ++ "9},{"
       ++ key "id" ++ "11}]".

Definition details7_text : string :=
  "{" ++ key "id" ++ "7," ++ key "title" ++ text "Terminal" ++ ","
      ++ key "wm_class" ++ text "kitty" ++ "," ++ key "maximized" ++ "0}".

Definition details9_text : string := "{" ++ key "id".

Definition details11_text : string :=
  "{" ++ key "id" ++ "11," ++ key "title" ++ text "Mail" ++ ","
      ++ key "wm_class" ++ text "Thunderbird" ++ "," ++ key "maximized"
      ++ "2}".

Definition basic_windows : json :=
  JArr [ JObj [("id", JInt 7)]; JObj [("id", JInt 0)];
         JObj [("id", JInt 9)]; JObj [("id", JInt 11)] ].

Definition window7 : json :=
  JObj [ ("id", JInt 7); ("title", JStr "Terminal");
         ("wm_class", JStr "kitty"); ("maximized", JInt 0) ].

Definition window11 : json :=
  JObj [ ("id", JInt 11); ("title", JStr "Mail");
         ("wm_class", JStr "Thunderbird"); ("maximized", JInt 2) ].

Definition loads (t : string) : option json :=
  if (t =? list_text)%string then Some basic_windows
  else if (t =? details7_text)%string then Some window7
  else if (t =? details11_text)%string then Some window11
  else None.

Definition bus (history : list (call * reply)) (c : call) : reply :=
  if (method c =? full_name "List")%string then GOk [list_text]
  else if (method c =? full_name "GetDetails")%string then
    match params c with
    | [VU32 7] => GOk [details7_text]
    | [VU32 9] => GOk [details9_text]
    | [VU32 11] => GOk [details11_text]
    | _ => GError "no such window"
    end
  else GOk [].

(** An extension that is not there: every call fails. *)
Definition bus_down (history : list (call * reply)) (c : call) : reply :=
  GError "The name org.gnome.Shell was not provided by any .service files".

Definition connect (name path interface : string) : glib DBusProxy :=
  GOk (Proxy name path interface).

Definition connect_fails (name path interface : string) : glib DBusProxy :=
  GError "Could not connect: No such file or directory".

Definition repr (v : json) : string := EmptyString.

(** An extension whose List reply is the given text, and a decoder for
    three small payloads. *)
Definition bus_list (payload : string) (history : list (call * reply))
           (c : call) : reply :=
  if (method c =? full_name "List")%string then GOk [payload] else GOk [].

Definition loads_small (t : string) : option json :=
  if (t =? "[]")%string then Some (JArr [])
  else if (t =? "null")%string then Some JNull
  else if (t =? "[7]")%string then Some (JArr [JInt 7])
  else None.

(** A window whose maximized field is null, and one whose title is. *)
Definition window_null_maximized : json :=
  JObj [ ("id", JInt 5); ("title", JStr "Editor");
         ("wm_class", JStr "gedit"); ("maximized", JNull) ].

Definition window_null_title : json :=
  JObj [ ("id", JInt 6); ("title", JNull); ("wm_class", JStr "gedit") ].

(** The state of a new client object, and of a connected one. *)
Definition fresh : state := State None [] [].

Definition connected : state :=
  State (Some (Proxy DBUS_DESTINATION DBUS_OBJECT_PATH DBUS_INTERFACE_NAME))
        [] [].

End Sample.

(** ** Basic facts *)

Example lower_ex : PyStr.lower "Window FOO" = "window foo".
Proof. reflexivity. Qed.
Example strip_ex : PyStr.strip "  a b  " = "a b".
Proof. reflexivity. Qed.
Example find_ex : PyStr.find "terminal" "min" = 3.
Proof. reflexivity. Qed.
Example find_ex2 : PyStr.find "terminal" "x" = -1.
Proof. reflexivity. Qed.
Example find_ex3 : PyStr.find EmptyString EmptyString = 0.
Proof. reflexivity. Qed.
Example split_ex : PyStr.split ":" "a:b:" = ["a"; "b"; EmptyString].
Proof. reflexivity. Qed.
Example of_int_ex : PyStr.of_int 4294967296 = "4294967296".
Proof. reflexivity. Qed.
Example of_int_ex2 : PyStr.of_int (-5) = "-5".
Proof. reflexivity. Qed.
Example to_int_ex : PyStr.to_int " +1_000 " = Some 1000.
Proof. reflexivity. Qed.
Example to_int_ex2 : PyStr.to_int "1__0" = None.
Proof. reflexivity. Qed.
Example to_int_ex3 : PyStr.to_int "-12" = Some (-12).
Proof. reflexivity. Qed.
Example to_int_ex4 : PyStr.to_int EmptyString = None.
Proof. reflexivity. Qed.
Example to_int_ex5 : PyStr.to_int "0x10" = None.
Proof. reflexivity. Qed.


Lemma state_eta (s : state) : State (_proxy s) (calls s) (log s) = s.
Proof. destruct s; reflexivity. Qed.

Section Facts.

Variable json_loads : string -> option json.
Variable bus : list (call * reply) -> call -> reply.
Variable new_for_bus_sync : string -> string -> string -> glib DBusProxy.
Variable repr_container : json -> string.

(** What [_call_method] does, case by case. *)
Lemma call_method_no_proxy method_name ps s :
  _proxy s = None ->
  _call_method bus method_name ps s = (Ret None, logged s LogNoProxy).
Proof.
  intros H. unfold _call_method, bind, get_proxy. rewrite H. reflexivity.
Qed.

Lemma call_method_connected method_name ps s p :
  _proxy s = Some p ->
  let c := Call (full_name method_name) ps in
  let r := bus (calls s) c in
  _call_method bus method_name ps s =
    match r with
    | GOk (first :: _) => (Ret (Some first), called s c r)
    | GOk [] => (Ret None, called s c r)
    | GError e =>
        (Ret None, logged (called s c r) (LogCallFailed method_name e))
    end.
Proof.
  intros H c r. unfold _call_method, bind, get_proxy, call_sync.
  rewrite H. fold (full_name method_name). fold c. fold r.
  destruct r as [[|first rest]|e]; reflexivity.
Qed.

Lemma find_trigger_triggered query :
  (find_trigger keywords query =? EmptyString)%string = negb (triggered query).
Proof.
  unfold triggered, keywords, find_trigger, existsb. simpl.
  destruct (PyStr.startswith (PyStr.lower query) "w "); [reflexivity|].
  destruct (PyStr.startswith (PyStr.lower query) "win "); [reflexivity|].
  destruct (PyStr.startswith (PyStr.lower query) "window "); reflexivity.
Qed.

Lemma keywords_untriggered query :
  In query keywords -> triggered query = false.
Proof.
  unfold keywords. simpl.
  intros [H|[H|[H|[]]]]; subst; reflexivity.
Qed.

End Facts.

(** ** The action commands: [execute_action] and [launch] *)

Section Actions.

Variable bus : list (call * reply) -> call -> reply.

Lemma variant_u_int_in_range win_id :
  0 <= win_id <= uint32_max -> variant_u_int win_id = Ret (VU32 win_id).
Proof.
  intros [Hlo Hhi]. unfold variant_u_int.
  apply Z.leb_le in Hlo. apply Z.leb_le in Hhi.
  rewrite Hlo, Hhi. reflexivity.
Qed.

Lemma variant_u_int_out_of_range win_id :
  ~ 0 <= win_id <= uint32_max -> variant_u_int win_id = Raise OverflowError.
Proof.
  intros H. unfold variant_u_int.
  destruct (0 <=? win_id) eqn:Hlo; [|reflexivity].
  destruct (win_id <=? uint32_max) eqn:Hhi; [|reflexivity].
  apply Z.leb_le in Hlo. apply Z.leb_le in Hhi. exfalso. apply H. lia.
Qed.

(** The entry of the table for an action is the remote call the
    specification names for it. *)
Lemma action_map_remote_call action win_id :
  0 <= win_id <= uint32_max ->
  exists table,
    action_map win_id = Ret table /\
    match assoc action table with
    | Some (method_name, ps) =>
        remote_call_of action win_id = Some (Call (full_name method_name) ps)
        /\ In action forwarded_actions
        /\ In method_name remote_methods
    | None =>
        remote_call_of action win_id = None /\ ~ In action forwarded_actions
    end.
Proof.
  intros Hr. unfold action_map. rewrite (variant_u_int_in_range Hr).
  eexists. split; [reflexivity|].
  unfold remote_call_of, assoc, forwarded_actions, remote_methods.
  rewrite (String.eqb_sym "activate"), (String.eqb_sym "close"),
    (String.eqb_sym "maximize"), (String.eqb_sym "unmaximize"),
    (String.eqb_sym "minimize").
  destruct (String.eqb_spec action "activate") as [->|N1];
    [simpl; intuition|].
  destruct (String.eqb_spec action "close") as [->|N2];
    [simpl; intuition|].
  destruct (String.eqb_spec action "maximize") as [->|N3];
    [simpl; intuition|].
  destruct (String.eqb_spec action "unmaximize") as [->|N4];
    [simpl; intuition|].
  destruct (String.eqb_spec action "minimize") as [->|N5];
    [simpl; intuition|].
  split; [reflexivity|]. simpl. intuition congruence.
Qed.

(** [execute_action] with a connected proxy and a window id that fits the
    ["u"] type: one call for a known action, one warning otherwise. *)
Lemma execute_action_connected action win_id s p :
  _proxy s = Some p -> 0 <= win_id <= uint32_max ->
  match remote_call_of action win_id with
  | Some c =>
      In action forwarded_actions /\
      exists lg,
        execute_action bus action win_id s =
          (Ret tt, State (Some p) (calls s ++ [(c, bus (calls s) c)]) lg)
  | None =>
      ~ In action forwarded_actions /\
      execute_action bus action win_id s =
        (Ret tt, logged s (LogUnknownAction action))
  end.
Proof.
  intros Hp Hr.
  destruct (action_map_remote_call action Hr) as (table & Ht & Ha).
  unfold execute_action, bind, lift. rewrite Ht.
  destruct (assoc action table) as [[method_name ps]|].
  - destruct Ha as (-> & Hin & _). split; [exact Hin|].
    rewrite (call_method_connected bus method_name ps s Hp). cbv zeta.
    destruct (bus (calls s) (Call (full_name method_name) ps))
      as [[|first rest]|e];
      unfold ret, called, logged; simpl; rewrite Hp; eexists; reflexivity.
  - destruct Ha as (-> & Hnin). split; [exact Hnin|]. reflexivity.
Qed.

(** (C4, as amended) The action commands the adapter forwards are exactly
    activate, close, maximize, unmaximize and minimize: with a connected
    proxy and a window id in 0..4294967295, execute_action makes one remote
    call (the one the command stands for) if the action is one of these
    five, and otherwise makes no call and only logs a warning. *)
Theorem execute_action_forwards action win_id s p :
  _proxy s = Some p -> 0 <= win_id <= uint32_max ->
  (In action forwarded_actions ->
     exists c lg,
       remote_call_of action win_id = Some c /\
       execute_action bus action win_id s =
         (Ret tt, State (Some p) (calls s ++ [(c, bus (calls s) c)]) lg)) /\
  (~ In action forwarded_actions ->
     execute_action bus action win_id s =
       (Ret tt, logged s (LogUnknownAction action))).
Proof.
  intros Hp Hr.
  pose proof (execute_action_connected action s Hp Hr) as H.
  destruct (remote_call_of action win_id) as [c|].
  - destruct H as (Hin & lg & He). split.
    + intros _. exists c, lg. split; [reflexivity|exact He].
    + intros Hn. contradiction.
  - destruct H as (Hn & He). split.
    + intros Hin. contradiction.
    + intros _. exact He.
Qed.


End Actions.

(** ** Every call names a remote method, and the proxy is never replaced *)

Section Invariant.

Variable json_loads : string -> option json.
Variable bus : list (call * reply) -> call -> reply.

Lemma extends_refl s : extends_known s s.
Proof.
  split; [reflexivity|]. exists []. split; [|constructor].
  symmetry. apply app_nil_r.
Qed.

Lemma extends_trans s1 s2 s3 :
  extends_known s1 s2 -> extends_known s2 s3 -> extends_known s1 s3.
Proof.
  intros (Hp1 & n1 & Hc1 & Hk1) (Hp2 & n2 & Hc2 & Hk2). split.
  - congruence.
  - exists (n1 ++ n2)%list. split.
    + rewrite Hc2, Hc1. symmetry. apply app_assoc.
    + apply Forall_app. split; assumption.
Qed.

Lemma keeps_ret A (a : A) : keeps (ret a).
Proof. intros s. apply extends_refl. Qed.

Lemma keeps_raise A e : keeps (@raise A e).
Proof. intros s. apply extends_refl. Qed.

Lemma keeps_lift A (o : outcome A) : keeps (lift o).
Proof. intros s. apply extends_refl. Qed.

Lemma keeps_logger r : keeps (logger r).
Proof.
  intros s. simpl. split; [reflexivity|]. exists []. split; [|constructor].
  simpl. symmetry. apply app_nil_r.
Qed.

Lemma keeps_bind A B (m : M A) (k : A -> M B) :
  keeps m -> (forall a, keeps (k a)) -> keeps (bind m k).
Proof.
  intros Hm Hk s. unfold bind. specialize (Hm s).
  destruct (m s) as [[a|e] s1]; simpl in *.
  - eapply extends_trans; [exact Hm|]. apply Hk.
  - exact Hm.
Qed.

Lemma keeps_try_except A (m : M A) caught h :
  keeps m -> (forall e, keeps (h e)) -> keeps (try_except m caught h).
Proof.
  intros Hm Hh s. unfold try_except. specialize (Hm s).
  destruct (m s) as [[a|e] s1]; simpl in *; [exact Hm|].
  destruct (caught e); simpl; [|exact Hm].
  eapply extends_trans; [exact Hm|]. apply Hh.
Qed.

Lemma keeps_call_method method_name ps :
  In method_name remote_methods -> keeps (_call_method bus method_name ps).
Proof.
  intros Hin s. destruct (_proxy s) as [p|] eqn:Hp.
  - rewrite (call_method_connected bus method_name ps s Hp). cbv zeta.
    assert (Hk : extends_known s
              (called s (Call (full_name method_name) ps)
                 (bus (calls s) (Call (full_name method_name) ps)))).
    { split; [reflexivity|]. eexists. split; [reflexivity|].
      constructor; [|constructor]. exists method_name. split; [exact Hin|].
      reflexivity. }
    destruct (bus (calls s) (Call (full_name method_name) ps))
      as [[|first rest]|e]; simpl; exact Hk.
  - rewrite (call_method_no_proxy bus method_name ps s Hp). simpl.
    apply (keeps_logger LogNoProxy s).
Qed.

Lemma keeps_details_step win detailed :
  keeps (details_step json_loads bus win detailed).
Proof.
  unfold details_step. apply keeps_bind; [apply keeps_lift|]. intros win_id.
  destruct (negb (Py.truthy win_id)); [apply keeps_ret|].
  apply keeps_bind; [apply keeps_lift|]. intros u.
  apply keeps_bind.
  - apply keeps_call_method. unfold remote_methods. simpl. tauto.
  - intros details_json. destruct (nonempty details_json) as [t|];
      [|apply keeps_ret].
    destruct (json_loads t); [apply keeps_ret|].
    apply keeps_bind; [apply keeps_logger|]. intros _. apply keeps_ret.
Qed.

Lemma keeps_details_loop wins :
  forall detailed, keeps (details_loop json_loads bus wins detailed).
Proof.
  induction wins as [|win rest IH]; intros detailed; simpl.
  - apply keeps_ret.
  - apply keeps_bind; [apply keeps_details_step|]. intros d. apply IH.
Qed.

Lemma keeps_get_all_windows_with_details :
  keeps (get_all_windows_with_details json_loads bus).
Proof.
  unfold get_all_windows_with_details. apply keeps_bind.
  - apply keeps_call_method. unfold remote_methods. simpl. tauto.
  - intros list_json. destruct (nonempty list_json) as [t|];
      [|apply keeps_ret].
    destruct (json_loads t) as [basic|].
    + apply keeps_bind; [apply keeps_lift|]. intros wins.
      apply keeps_bind; [apply keeps_details_loop|]. intros d.
      apply keeps_ret.
    + apply keeps_bind; [apply keeps_logger|]. intros _. apply keeps_ret.
Qed.

Lemma action_map_methods action win_id table method_name ps :
  action_map win_id = Ret table ->
  assoc action table = Some (method_name, ps) ->
  In method_name remote_methods.
Proof using Type.
  unfold action_map. destruct (variant_u_int win_id) as [u|e];
    [|discriminate].
  intros Ht Ha. injection Ht as <-. unfold remote_methods. simpl in Ha.
  repeat match type of Ha with
         | (if ?b then _ else _) = _ =>
             destruct b;
             [injection Ha as <- _; simpl;
              repeat (first [left; reflexivity | right])|]
         end.
  discriminate.
Qed.

Lemma keeps_execute_action action win_id :
  keeps (execute_action bus action win_id).
Proof using Type.
  unfold execute_action, lift. intros s. unfold bind.
  destruct (action_map win_id) as [table|e] eqn:Ht; [|apply extends_refl].
  destruct (assoc action table) as [[method_name ps]|] eqn:Ha.
  - pose proof (keeps_call_method ps (action_map_methods _ _ Ht Ha) s) as Hk.
    destruct (_call_method bus method_name ps s) as [[r|e] s1]; exact Hk.
  - apply (keeps_logger (LogUnknownAction action) s).
Qed.

Lemma keeps_launch (W : Type) (window : W) id : keeps (launch bus window id).
Proof using Type.
  unfold launch. destruct (PyStr.startswith id "error:"); [apply keeps_ret|].
  apply keeps_try_except; [|intros e; apply keeps_logger].
  destruct (PyStr.split ":" id) as [|action [|win_id_str [|x l]]];
    try apply keeps_raise.
  destruct (PyStr.to_int win_id_str);
    [apply keeps_execute_action|apply keeps_raise].
Qed.

Lemma keeps_search repr_container query s :
  extends_known s (snd (search json_loads bus repr_container query s)).
Proof.
  unfold search.
  destruct (find_trigger keywords query =? EmptyString)%string;
    [apply extends_refl|].
  pose proof (keeps_get_all_windows_with_details s) as Hk.
  destruct (get_all_windows_with_details json_loads bus s)
    as [[[windows|]|e] s1]; exact Hk.
Qed.

End Invariant.

(** ** Fetching the windows *)

Section Fetch.

Variable json_loads : string -> option json.
Variable bus : list (call * reply) -> call -> reply.

Lemma answers_app history cs1 cs2 :
  answers bus history (cs1 ++ cs2) =
    (answers bus history cs1
       ++ answers bus (history ++ answers bus history cs1) cs2)%list.
Proof.
  revert history. induction cs1 as [|c rest IH]; intros history; simpl.
  - rewrite app_nil_r. reflexivity.
  - f_equal. rewrite IH. rewrite <- app_assoc. reflexivity.
Qed.

Lemma answers_calls history cs : map fst (answers bus history cs) = cs.
Proof.
  revert history. induction cs as [|c rest IH]; intros history; simpl.
  - reflexivity.
  - f_equal. apply IH.
Qed.

(** What [_call_method] returns is the text of the reply, once the empty
    text is set aside. *)
Lemma nonempty_reply_text (r : reply) :
  nonempty (match r with GOk (first :: _) => Some first | _ => None end)
  = reply_text r.
Proof.
  destruct r as [[|[|c t] rest]|e]; reflexivity.
Qed.

(** One turn of the loop on an entry of the expected shape. *)
Lemma details_step_listed win detailed s p :
  _proxy s = Some p -> listed_window win = true ->
  exists lg,
    details_step json_loads bus win detailed s =
      (Ret (detailed
              ++ flat_map (decoded json_loads)
                   (map snd
                      (answers bus (calls s) (details_call_of win))))%list,
       State (Some p)
             (calls s ++ answers bus (calls s) (details_call_of win)) lg).
Proof.
  intros Hp Hw. destruct win as [| | | | |kv]; try discriminate.
  destruct s as [px cs lg0]. simpl in Hp. subst px.
  unfold details_step, bind, lift, Py.get, details_call_of.
  unfold listed_window in Hw.
  destruct (Py.lookup "id" kv) as [v|]; simpl.
  - destruct (Py.truthy v); simpl in Hw |- *.
    + destruct (variant_u v) as [u|e]; [|discriminate].
      rewrite (call_method_connected bus "GetDetails" [u]
                 (State (Some p) cs lg0) eq_refl).
      unfold decoded, called, logged. simpl.
      destruct (bus cs (Call (full_name "GetDetails") [u]))
        as [[|[|ch t] rest]|e]; simpl.
      * eexists. unfold ret. rewrite ?app_nil_r. reflexivity.
      * eexists. unfold ret. rewrite ?app_nil_r. reflexivity.
      * destruct (json_loads (String ch t)) as [d|]; simpl.
        -- eexists. unfold ret. rewrite ?app_nil_r. reflexivity.
        -- eexists. unfold ret. rewrite ?app_nil_r. reflexivity.
      * eexists. unfold ret. rewrite ?app_nil_r. reflexivity.
    + eexists. unfold ret. rewrite ?app_nil_r. reflexivity.
  - eexists. unfold ret. rewrite ?app_nil_r. reflexivity.
Qed.

Lemma details_loop_listed wins :
  forall detailed s p,
    _proxy s = Some p ->
    Forall (fun win => listed_window win = true) wins ->
    exists lg,
      details_loop json_loads bus wins detailed s =
        (Ret (detailed
                ++ flat_map (decoded json_loads)
                     (map snd (answers bus (calls s) (requested wins))))%list,
         State (Some p)
               (calls s ++ answers bus (calls s) (requested wins)) lg).
Proof.
  induction wins as [|win rest IH]; intros detailed s p Hp Hall.
  - exists (log s). simpl. unfold ret. rewrite !app_nil_r, <- Hp.
    rewrite state_eta. reflexivity.
  - inversion Hall as [|w l Hw Hrest]; subst.
    destruct (details_step_listed win detailed s Hp Hw) as (lg1 & Hstep).
    simpl. unfold bind. rewrite Hstep.
    edestruct (IH (detailed
                     ++ flat_map (decoded json_loads)
                          (map snd (answers bus (calls s)
                                      (details_call_of win))))%list
                  (State (Some p)
                     (calls s ++ answers bus (calls s) (details_call_of win))
                     lg1) p eq_refl Hrest) as (lg2 & Hloop).
    rewrite Hloop. simpl. exists lg2.
    unfold requested. simpl. fold (requested rest).
    rewrite answers_app, map_app, flat_map_app, <- !app_assoc.
    reflexivity.
Qed.

(** The whole fetch, when the List reply carries a JSON list of entries of
    the expected shape. *)
Lemma get_all_windows_listed s p text wins :
  _proxy s = Some p ->
  reply_text (bus (calls s) list_call) = Some text ->
  json_loads text = Some (JArr wins) ->
  Forall (fun win => listed_window win = true) wins ->
  let history := (calls s ++ [(list_call, bus (calls s) list_call)])%list in
  exists lg,
    get_all_windows_with_details json_loads bus s =
      (Ret (Some (flat_map (decoded json_loads)
                    (map snd (answers bus history (requested wins))))),
       State (Some p) (history ++ answers bus history (requested wins)) lg).
Proof.
  intros Hp Ht Hl Hall history.
  unfold get_all_windows_with_details, bind.
  rewrite (call_method_connected bus "List" [] s Hp). cbv zeta.
  fold list_call.
  pose proof (nonempty_reply_text (bus (calls s) list_call)) as Hn.
  rewrite Ht in Hn.
  destruct (bus (calls s) list_call) as [[|first rest]|e] eqn:Hb;
    try discriminate.
  unfold ret at 1. rewrite Hn, Hl. unfold lift, Py.iter.
  destruct (details_loop_listed [] (called s list_call (GOk (first :: rest)))
              (p := p) Hp Hall) as (lg & Hloop).
  rewrite Hloop. exists lg. reflexivity.
Qed.

(** The fetch gives [None] when the List reply cannot be used. *)
Lemma get_all_windows_unusable s :
  match _proxy s with
  | None => True
  | Some _ =>
      match reply_text (bus (calls s) list_call) with
      | None => True
      | Some text => json_loads text = None
      end
  end ->
  exists s',
    get_all_windows_with_details json_loads bus s = (Ret None, s') /\
    _proxy s' = _proxy s /\
    calls s' =
      match _proxy s with
      | None => calls s
      | Some _ => (calls s ++ [(list_call, bus (calls s) list_call)])%list
      end.
Proof.
  intros H. unfold get_all_windows_with_details, bind.
  destruct (_proxy s) as [p|] eqn:Hp.
  - rewrite (call_method_connected bus "List" [] s Hp). cbv zeta.
    fold list_call.
    destruct (bus (calls s) list_call) as [[|[|ch t] rest]|e]; simpl in *.
    + eexists. split; [reflexivity|]. simpl. auto.
    + eexists. split; [reflexivity|]. simpl. auto.
    + rewrite H. eexists. split; [reflexivity|]. simpl. auto.
    + eexists. split; [reflexivity|]. simpl. auto.
  - rewrite (call_method_no_proxy bus "List" [] s Hp). simpl.
    eexists. split; [reflexivity|]. simpl. auto.
Qed.

End Fetch.

(** ** The fetch protocol and its failures *)

Section FetchProtocol.

Variable json_loads : string -> option json.
Variable bus : list (call * reply) -> call -> reply.

(** (C3) get_all_windows_with_details works in two steps: it calls List
    once; then, for each window of the decoded List reply that has a truthy
    id (window ids are values of the D-Bus type u), it calls GetDetails once
    with that id, in the order of the reply; and it returns the details that
    could be decoded, in that same order. *)
Theorem get_all_windows_two_steps s p text wins :
  _proxy s = Some p ->
  reply_text (bus (calls s) list_call) = Some text ->
  json_loads text = Some (JArr wins) ->
  Forall (fun win => listed_window win = true) wins ->
  exists s' gd,
    get_all_windows_with_details json_loads bus s =
      (Ret (Some (flat_map (decoded json_loads) (map snd gd))), s') /\
    calls s' = (calls s ++ (list_call, bus (calls s) list_call) :: gd)%list /\
    map fst gd = requested wins /\
    gd = answers bus (calls s ++ [(list_call, bus (calls s) list_call)])
           (requested wins).
Proof.
  intros Hp Ht Hl Hall.
  destruct (get_all_windows_listed json_loads bus s Hp Ht Hl Hall)
    as (lg & Hrun).
  eexists. eexists. split; [exact Hrun|]. split; [|split].
  - simpl. rewrite <- app_assoc. reflexivity.
  - apply answers_calls.
  - reflexivity.
Qed.


End FetchProtocol.

(** ** Facts about texts *)

Lemma prefix_occurs p s :
  String.prefix p s = true <-> exists post, s = p ++ post.
Proof.
  revert s. induction p as [|a p IH]; intros s.
  - destruct s; simpl; split; intros; try reflexivity; eexists; reflexivity.
  - destruct s as [|b s]; simpl.
    + split; [discriminate|]. intros (post & H). discriminate.
    + destruct (ascii_dec a b) as [->|Hab].
      * rewrite IH. split; intros (post & H); exists post.
        -- rewrite H. reflexivity.
        -- injection H as H. exact H.
      * split; [discriminate|]. intros (post & H). injection H as H1 H2.
        congruence.
Qed.

Lemma find_nil sub :
  PyStr.find EmptyString sub =
    if String.prefix sub EmptyString then 0 else -1.
Proof. reflexivity. Qed.

Lemma find_cons c r sub :
  PyStr.find (String c r) sub =
    if String.prefix sub (String c r) then 0
    else if PyStr.find r sub =? -1 then -1 else PyStr.find r sub + 1.
Proof. reflexivity. Qed.

Lemma find_lower_bound s sub : -1 <= PyStr.find s sub.
Proof.
  induction s as [|c r IH].
  - rewrite find_nil. destruct (String.prefix sub EmptyString); lia.
  - rewrite find_cons. destruct (String.prefix sub (String c r)); [lia|].
    destruct (PyStr.find r sub =? -1) eqn:E; [lia|].
    apply Z.eqb_neq in E. lia.
Qed.

Lemma occurs_cons sub c r :
  occurs sub (String c r) <->
  String.prefix sub (String c r) = true \/ occurs sub r.
Proof.
  split.
  - intros (pre & post & H). destruct pre as [|c' pre].
    + left. apply prefix_occurs. exists post. exact H.
    + right. simpl in H. injection H as _ H. exists pre, post. exact H.
  - intros [H|(pre & post & H)].
    + apply prefix_occurs in H. destruct H as (post & H).
      exists EmptyString, post. exact H.
    + exists (String c pre), post. simpl. rewrite H. reflexivity.
Qed.

(** [find] gives -1 exactly when the text does not occur. *)
Lemma find_none s sub : PyStr.find s sub = -1 <-> ~ occurs sub s.
Proof.
  induction s as [|c r IH].
  - rewrite find_nil. destruct (String.prefix sub EmptyString) eqn:E.
    + split; [discriminate|]. intros H. exfalso. apply H.
      apply prefix_occurs in E. destruct E as (post & E).
      exists EmptyString, post. exact E.
    + split; [|reflexivity]. intros _ (pre & post & H).
      destruct pre; [|discriminate]. simpl in H.
      assert (String.prefix sub EmptyString = true)
        by (apply prefix_occurs; exists post; exact H).
      congruence.
  - rewrite occurs_cons, find_cons.
    destruct (String.prefix sub (String c r)) eqn:E.
    + split; [discriminate|]. intros H. exfalso. apply H. left. reflexivity.
    + pose proof (find_lower_bound r sub) as Hlb.
      destruct (PyStr.find r sub =? -1) eqn:E1.
      * apply Z.eqb_eq in E1. split; [|reflexivity].
        intros _ [H|H]; [discriminate|]. apply IH in E1. contradiction.
      * apply Z.eqb_neq in E1. split; [lia|].
        intros H. exfalso. apply E1. apply IH. intros Ho. apply H.
        right. exact Ho.
Qed.

(** ** The search results *)

Section SearchFacts.

Variable repr_container : json -> string.

(** On a window of the expected shape the loop body yields the three
    results, or nothing, and never raises. *)
Lemma window_results_shaped search_term win :
  window_shape win = true ->
  window_results repr_container search_term win =
    (expected_results repr_container search_term win, Ret tt).
Proof.
  destruct win as [| | | | |kv]; try discriminate.
  unfold window_shape, window_results, expected_results, window_offset,
    three_results, title_of, class_of, id_of, is_maximized, field_of, Py.get.
  intros H.
  destruct (Py.lookup "title" kv) as [[| | |t| |]|]; try discriminate;
    destruct (Py.lookup "wm_class" kv) as [[| | |c| |]|]; try discriminate;
    destruct (Py.lookup "maximized" kv) as [[|b|n| | |]|]; try discriminate;
    clear H;
    (destruct (Py.lookup "id" kv) as [v|];
     [destruct (Py.truthy v) eqn:Hv|]);
    unfold text_of, gen_bind, gen_lift, Py.as_str, Py.gt0, yield, gen_ret;
    match goal with
    | |- context [PyStr.find (PyStr.lower ?x) search_term =? -1] =>
        destruct (PyStr.find (PyStr.lower x) search_term =? -1) eqn:E1
    end;
    try match goal with
    | |- context [PyStr.find (PyStr.lower ?x) search_term =? -1] =>
        destruct (PyStr.find (PyStr.lower x) search_term =? -1) eqn:E2
    end;
    rewrite ?E1, ?Hv; simpl orb; simpl negb; cbv iota; try reflexivity;
    try (destruct b); try (destruct (0 <? n)); reflexivity.
Qed.

Lemma search_loop_shaped search_term windows :
  Forall (fun win => window_shape win = true) windows ->
  search_loop repr_container search_term windows =
    (flat_map (expected_results repr_container search_term) windows, Ret tt).
Proof.
  induction 1 as [|win rest Hw Hrest IH]; simpl.
  - reflexivity.
  - rewrite (window_results_shaped search_term win Hw), IH. reflexivity.
Qed.

Lemma in_gen_bind A B (g : gen A) (k : A -> gen B) r :
  In r (fst (gen_bind g k)) ->
  In r (fst g) \/ exists a, snd g = Ret a /\ In r (fst (k a)).
Proof.
  destruct g as [rs [a|e]]; simpl.
  - destruct (k a) as [rs' o] eqn:Hk. simpl. intros H.
    apply in_app_or in H. destruct H as [H|H]; [left; exact H|].
    right. exists a. rewrite Hk. split; [reflexivity|exact H].
  - intros H. left. exact H.
Qed.

Lemma get_field win key default v :
  Py.get win key default = Ret v -> v = field_of win key default.
Proof.
  destruct win; simpl; try discriminate. intros H. injection H as <-.
  reflexivity.
Qed.

(** Whatever the window is, each result of the loop body carries one of the
    four offered actions and the id of the window, which is truthy. *)
Lemma window_results_ids search_term win r :
  In r (fst (window_results repr_container search_term win)) ->
  Py.truthy (id_of win) = true /\
  exists action,
    In action offered_actions /\
    SearchResult.id r = action ++ ":" ++ format repr_container (id_of win).
Proof.
  unfold window_results. intros H.
  repeat (apply in_gen_bind in H;
          destruct H as [H|(? & ? & H)]; [contradiction H|]).
  match type of H with
  | In _ (fst (if ?b then _ else _)) => destruct b; [contradiction H|]
  end.
  apply in_gen_bind in H. destruct H as [H|(win_id & Hid & H)];
    [contradiction H|].
  simpl in Hid. apply get_field in Hid. fold (id_of win) in Hid. subst win_id.
  destruct (Py.truthy (id_of win)); [|contradiction H].
  split; [reflexivity|]. simpl negb in H. cbv iota in H.
  unfold offered_actions.
  apply in_gen_bind in H. destruct H as [[H|[]]|(? & _ & H)].
  { subst r. exists "activate". simpl. tauto. }
  apply in_gen_bind in H. destruct H as [[H|[]]|(? & _ & H)].
  { subst r. exists "close". simpl. tauto. }
  apply in_gen_bind in H. destruct H as [H|(m & _ & H)]; [contradiction H|].
  apply in_gen_bind in H. destruct H as [H|(is_max & _ & H)];
    [contradiction H|].
  destruct is_max; simpl in H; destruct H as [H|[]]; subst r.
  - exists "unmaximize". simpl. tauto.
  - exists "maximize". simpl. tauto.
Qed.


End SearchFacts.

(** ** Decimal numerals: what [str] writes, [int] reads back *)

Lemma digit_facts c :
  is_digit c = true ->
  PyStr.is_space c = false /\ Ascii.eqb c "_" = false /\
  Ascii.eqb c ":" = false.
Proof.
  destruct c as [[] [] [] [] [] [] [] []]; intros H;
    try discriminate H; repeat split; reflexivity.
Qed.

Lemma to_int_digit_head c r :
  is_digit c = true ->
  PyStr.strip (String c r) = String c r ->
  PyStr.to_int (String c r) = PyStr.unsigned_of_string (String c r).
Proof.
  intros Hc Hs. unfold PyStr.to_int. rewrite Hs.
  destruct c as [[] [] [] [] [] [] [] []]; try discriminate Hc; reflexivity.
Qed.

Lemma string_of_uint_digits d :
  all_digits (NilEmpty.string_of_uint d) = true.
Proof. induction d; simpl; auto. Qed.

Lemma of_int_digits n :
  0 < n -> all_digits (PyStr.of_int n) = true /\
           PyStr.of_int n <> EmptyString /\
           NilZero.uint_of_string (PyStr.of_int n)
             = Some (Pos.to_uint (Z.to_pos n)).
Proof.
  intros Hn. destruct n as [|p|p]; try lia.
  unfold PyStr.of_int. simpl Z.to_int. simpl Z.to_pos.
  unfold NilZero.string_of_int.
  pose proof (DecimalPos.Unsigned.to_uint_nonnil p) as Hnil.
  assert (Heq : NilZero.string_of_uint (Pos.to_uint p)
                = NilEmpty.string_of_uint (Pos.to_uint p))
    by (destruct (Pos.to_uint p); [contradiction|reflexivity..]).
  split; [|split].
  - rewrite Heq. apply string_of_uint_digits.
  - rewrite Heq. destruct (Pos.to_uint p); [contradiction|discriminate..].
  - apply NilZero.usu. exact Hnil.
Qed.

Lemma digits_lstrip s : all_digits s = true -> PyStr.lstrip s = s.
Proof.
  destruct s as [|c r]; [reflexivity|]. simpl. intros H.
  apply andb_prop in H. destruct H as [Hc _].
  destruct (digit_facts c Hc) as (Hs & _). rewrite Hs. reflexivity.
Qed.

Lemma digits_rstrip s : all_digits s = true -> PyStr.rstrip s = s.
Proof.
  induction s as [|c r IH]; [reflexivity|]. simpl. intros H.
  apply andb_prop in H. destruct H as [Hc Hr]. rewrite (IH Hr).
  destruct (digit_facts c Hc) as (Hs & _). rewrite Hs.
  destruct r; reflexivity.
Qed.

Lemma digits_underscores s :
  all_digits s = true ->
  PyStr.underscores_ok true s = true /\ PyStr.drop_underscores s = s.
Proof.
  induction s as [|c r IH]; [split; reflexivity|]. simpl. intros H.
  apply andb_prop in H. destruct H as [Hc Hr].
  destruct (digit_facts c Hc) as (_ & Hu & _). rewrite Hu.
  destruct (IH Hr) as (H1 & H2). rewrite H1, H2. split; reflexivity.
Qed.

Lemma digits_split s : all_digits s = true -> PyStr.split ":" s = [s].
Proof.
  induction s as [|c r IH]; [reflexivity|]. simpl. intros H.
  apply andb_prop in H. destruct H as [Hc Hr].
  destruct (digit_facts c Hc) as (_ & _ & Hcolon).
  rewrite Hcolon, (IH Hr). reflexivity.
Qed.

(** [int(str(n)) == n] for a positive integer. *)
Lemma to_int_of_int n : 0 < n -> PyStr.to_int (PyStr.of_int n) = Some n.
Proof.
  intros Hn. destruct (of_int_digits Hn) as (Hd & Hne & Hu).
  assert (Hs : PyStr.strip (PyStr.of_int n) = PyStr.of_int n).
  { unfold PyStr.strip.
    rewrite (digits_lstrip _ Hd), (digits_rstrip _ Hd). reflexivity. }
  destruct (PyStr.of_int n) as [|c r] eqn:E; [contradiction|].
  pose proof Hd as Hd'. simpl in Hd'. apply andb_prop in Hd'.
  destruct Hd' as [Hc Hr].
  destruct (digit_facts c Hc) as (_ & Hus & _).
  rewrite (to_int_digit_head Hc Hs).
  unfold PyStr.unsigned_of_string.
  destruct (digits_underscores _ Hd) as (_ & Hdrop). rewrite Hdrop.
  simpl PyStr.underscores_ok. rewrite Hus.
  destruct (digits_underscores _ Hr) as (Hok & _). rewrite Hok.
  rewrite Hu. simpl. unfold Z.of_uint.
  rewrite DecimalPos.Unsigned.of_to. simpl. f_equal. lia.
Qed.

(** The id that [search] writes for an action and a positive window id is
    read back by [launch] as this action and this id. *)
Lemma parse_id_of_int action n :
  In action offered_actions -> 0 < n ->
  PyStr.startswith (action ++ ":" ++ PyStr.of_int n) "error:" = false /\
  parse_id (action ++ ":" ++ PyStr.of_int n) = Some (action, n).
Proof.
  intros Ha Hn. destruct (of_int_digits Hn) as (Hd & _ & _).
  unfold parse_id, offered_actions in *.
  simpl in Ha. destruct Ha as [<-|[<-|[<-|[<-|[]]]]];
    (split; [reflexivity|]); simpl; rewrite (digits_split _ Hd);
    rewrite (to_int_of_int Hn); reflexivity.
Qed.

(** ** The search callback *)

Section SearchCallback.

Variable json_loads : string -> option json.
Variable bus : list (call * reply) -> call -> reply.
Variable repr_container : json -> string.

Lemma search_triggered query s :
  triggered query = true ->
  search json_loads bus repr_container query s =
    match get_all_windows_with_details json_loads bus s with
    | (Raise e, s') => (gen_lift (Raise e), s')
    | (Ret None, s') => (yield error_result, s')
    | (Ret (Some windows), s') =>
        (search_loop repr_container (PyStr.lower (remaining_term query))
           windows, s')
    end.
Proof.
  intros H. unfold search. rewrite find_trigger_triggered, H. reflexivity.
Qed.

Lemma search_untriggered query s :
  triggered query = false ->
  search json_loads bus repr_container query s = (([], Ret tt), s).
Proof.
  intros Ht. unfold search. rewrite find_trigger_triggered, Ht. reflexivity.
Qed.

(** (C8) Keyword gating: a query whose lower-case form does not start with
    "w ", "win " or "window " yields no result at all, not even the
    connection-error result, makes no call on the bus and logs nothing; this
    holds in particular for a query that is a bare keyword. *)
Theorem search_keyword_gate query s :
  triggered query = false \/ In query keywords ->
  search json_loads bus repr_container query s = (([], Ret tt), s).
Proof.
  intros H. assert (Ht : triggered query = false).
  { destruct H as [H|H]; [exact H|]. apply keywords_untriggered. exact H. }
  apply search_untriggered. exact Ht.
Qed.

Lemma search_shaped query s windows s' :
  triggered query = true ->
  get_all_windows_with_details json_loads bus s = (Ret (Some windows), s') ->
  Forall (fun win => window_shape win = true) windows ->
  search json_loads bus repr_container query s =
    ((flat_map (expected_results repr_container
                  (PyStr.lower (remaining_term query))) windows, Ret tt), s').
Proof.
  intros Ht Hf Hs. rewrite (search_triggered query s Ht), Hf.
  rewrite (search_loop_shaped repr_container _ Hs). reflexivity.
Qed.





End SearchCallback.

(** ** From a search result to the remote call *)

Section RoundTrip.

Variable json_loads : string -> option json.
Variable bus : list (call * reply) -> call -> reply.
Variable repr_container : json -> string.


(** [launch] on an id of the form action:integer hands both to
    [execute_action]. *)
Lemma launch_well_formed (W : Type) (window : W) id action win_id st :
  PyStr.startswith id "error:" = false ->
  parse_id id = Some (action, win_id) ->
  launch bus window id st =
    try_except (execute_action bus action win_id) caught_by_launch
      (fun e => logger (LogParseId id e)) st.
Proof.
  intros He Hp. unfold launch. rewrite He. unfold parse_id in Hp.
  destruct (PyStr.split ":" id) as [|a [|w [|x l]]]; try discriminate.
  unfold try_except. destruct (PyStr.to_int w); [|discriminate].
  injection Hp as -> ->. reflexivity.
Qed.


End RoundTrip.

(** ** Sessions: the remote methods and the failures *)

Section Sessions.

Variable json_loads : string -> option json.
Variable bus : list (call * reply) -> call -> reply.
Variable new_for_bus_sync : string -> string -> string -> glib DBusProxy.
Variable repr_container : json -> string.

Lemma init_calls s :
  calls (snd (WindowCommander__init__ new_for_bus_sync s)) = calls s.
Proof.
  unfold WindowCommander__init__, WindowCommanderDBus__init__, bind,
    set_proxy.
  simpl.
  destruct (new_for_bus_sync DBUS_DESTINATION DBUS_OBJECT_PATH
              DBUS_INTERFACE_NAME); reflexivity.
Qed.

Lemma run_entry_calls_known s e :
  calls_known s
    (run_entry json_loads bus new_for_bus_sync repr_container s e).
Proof.
  destruct e as [|query|id]; simpl.
  - exists []. rewrite init_calls, app_nil_r. split; [reflexivity|constructor].
  - apply (keeps_search json_loads bus repr_container query s).
  - apply (keeps_launch bus tt id s).
Qed.

Lemma session_calls_known es :
  forall s,
    calls_known s
      (session json_loads bus new_for_bus_sync repr_container es s).
Proof.
  unfold session. induction es as [|e rest IH]; intros s; simpl.
  - exists []. rewrite app_nil_r. split; [reflexivity|constructor].
  - destruct (run_entry_calls_known s e) as (n1 & H1 & K1).
    destruct (IH (run_entry json_loads bus new_for_bus_sync repr_container
                    s e)) as (n2 & H2 & K2).
    exists (n1 ++ n2)%list. split.
    + rewrite H2, H1, app_assoc. reflexivity.
    + apply Forall_app. split; assumption.
Qed.

End Sessions.

(** The sample extension answers a triggered search with List and
    GetDetails calls, whatever the decoder makes of the details. *)
Lemma sample_search_calls loads :
  loads Sample.list_text = Some Sample.basic_windows ->
  methods_called
    (session loads Sample.bus Sample.connect Sample.repr
       [Init; Search "w "] Sample.fresh)
  = [full_name "List"; full_name "GetDetails"; full_name "GetDetails";
     full_name "GetDetails"].
Proof.
  intros Hl. unfold session. simpl fold_left.
  match goal with
  | |- context [search _ _ _ _ ?st] => set (s1 := st)
  end.
  rewrite (search_triggered loads Sample.bus Sample.repr "w " s1 eq_refl).
  destruct (get_all_windows_listed loads Sample.bus s1
              (p := Proxy DBUS_DESTINATION DBUS_OBJECT_PATH
                      DBUS_INTERFACE_NAME)
              (text := Sample.list_text)
              (wins := [ JObj [("id", JInt 7)]; JObj [("id", JInt 0)];
                         JObj [("id", JInt 9)]; JObj [("id", JInt 11)] ]))
    as (lg & Hrun).
  - reflexivity.
  - reflexivity.
  - exact Hl.
  - repeat constructor.
  - rewrite Hrun. reflexivity.
Qed.

(** (C2) The remote methods the program invokes on the bus are exactly
    List, GetDetails, Activate, Close, Maximize, Unmaximize and Minimize:
    in every session of the plugin (creation, searches, launches) each call
    made on the bus names one of these seven methods of the interface, and
    each of the seven is invoked in some session. *)
Theorem remote_method_names :
  (forall loads bus connect repr es s,
     calls_known s (session loads bus connect repr es s)) /\
  (forall loads,
     loads Sample.list_text = Some Sample.basic_windows ->
     forall m, In m remote_methods ->
       exists es,
         In (full_name m)
            (methods_called
               (session loads Sample.bus Sample.connect Sample.repr es
                  Sample.fresh))).
Proof.
  split.
  - intros. apply session_calls_known.
  - intros loads Hl m Hm. unfold remote_methods in Hm. simpl in Hm.
    destruct Hm as [<-|[<-|[<-|[<-|[<-|[<-|[<-|[]]]]]]]].
    + exists [Init; Search "w "]. rewrite (sample_search_calls loads Hl).
      left. reflexivity.
    + exists [Init; Search "w "]. rewrite (sample_search_calls loads Hl).
      right. left. reflexivity.
    + exists [Init; Launch "activate:7"]. left. reflexivity.
    + exists [Init; Launch "close:7"]. left. reflexivity.
    + exists [Init; Launch "maximize:7"]. left. reflexivity.
    + exists [Init; Launch "unmaximize:7"]. left. reflexivity.
    + exists [Init; Launch "minimize:7"]. left. reflexivity.
Qed.

(** (C5, as amended) Failures are logged, never recovered from.  When the
    proxy cannot be built, when a remote call fails or when a reply is not
    valid JSON, the D-Bus client writes one log record and returns None (or
    skips the window whose details failed); the failing call is made once,
    never again, and the client keeps its proxy attribute as it was.  The
    only further output is that of search, which yields exactly one result,
    error:no-connection, when the window list is None. *)
Theorem failures_logged_and_reported :
  (forall connect e s,
     connect DBUS_DESTINATION DBUS_OBJECT_PATH DBUS_INTERFACE_NAME
       = GError e ->
     WindowCommanderDBus__init__ connect s =
       (Ret tt, State None (calls s) (log s ++ [LogConnectFailed e]))) /\
  (forall bus m ps s,
     _proxy s = None ->
     _call_method bus m ps s = (Ret None, logged s LogNoProxy)) /\
  (forall bus m ps s p e,
     _proxy s = Some p ->
     bus (calls s) (Call (full_name m) ps) = GError e ->
     _call_method bus m ps s =
       (Ret None,
        logged (called s (Call (full_name m) ps) (GError e))
          (LogCallFailed m e))) /\
  (forall loads bus s p text,
     _proxy s = Some p ->
     reply_text (bus (calls s) list_call) = Some text ->
     loads text = None ->
     get_all_windows_with_details loads bus s =
       (Ret None,
        logged (called s list_call (bus (calls s) list_call)) LogListJson)) /\
  (forall loads bus kv detailed s p u text,
     _proxy s = Some p ->
     Py.truthy (id_of (JObj kv)) = true ->
     variant_u (id_of (JObj kv)) = Ret u ->
     reply_text (bus (calls s) (Call (full_name "GetDetails") [u]))
       = Some text ->
     loads text = None ->
     details_step loads bus (JObj kv) detailed s =
       (Ret detailed,
        logged (called s (Call (full_name "GetDetails") [u])
                  (bus (calls s) (Call (full_name "GetDetails") [u])))
          (LogDetailsJson (id_of (JObj kv))))) /\
  (forall loads bus repr query s s',
     triggered query = true ->
     get_all_windows_with_details loads bus s = (Ret None, s') ->
     search loads bus repr query s = (([error_result], Ret tt), s')) /\
  (forall loads bus connect repr s e,
     e <> Init -> _proxy (run_entry loads bus connect repr s e) = _proxy s).
Proof.
  repeat split.
  - intros connect e s H.
    unfold WindowCommanderDBus__init__, bind, set_proxy. simpl. rewrite H.
    reflexivity.
  - intros bus m ps s H. apply call_method_no_proxy. exact H.
  - intros bus m ps s p e Hp Hb.
    rewrite (call_method_connected bus m ps s Hp). cbv zeta. rewrite Hb.
    reflexivity.
  - intros loads bus s p text Hp Ht Hl.
    unfold get_all_windows_with_details, bind.
    rewrite (call_method_connected bus "List" [] s Hp). cbv zeta.
    fold list_call.
    destruct (bus (calls s) list_call) as [[|[|ch t] rest]|e];
      try discriminate Ht.
    simpl in Ht. injection Ht as <-. unfold ret at 1. unfold nonempty.
    rewrite Hl. reflexivity.
  - intros loads bus kv detailed s p u text Hp Hid Hu Ht Hl.
    unfold details_step, bind, lift, Py.get.
    change (match Py.lookup "id" kv with Some v => v | None => JNull end)
      with (id_of (JObj kv)).
    rewrite Hid, Hu. change (negb true) with false. cbv beta iota.
    rewrite (call_method_connected bus "GetDetails" [u] s Hp). cbv zeta.
    destruct (bus (calls s) (Call (full_name "GetDetails") [u]))
      as [[|[|ch t] rest]|e]; try discriminate Ht.
    simpl in Ht. injection Ht as <-. unfold ret at 1. unfold nonempty.
    rewrite Hl. reflexivity.
  - intros loads bus repr query s s' Ht Hf.
    rewrite (search_triggered loads bus repr query s Ht), Hf. reflexivity.
  - intros loads bus connect repr s e He. destruct e as [|query|id].
    + contradiction.
    + apply (keeps_search loads bus repr query s).
    + apply (keeps_launch bus tt id s).
Qed.

(** ** The sample session, run *)

(** The purpose statement leaves unmaximize out of the action commands, but
    [execute_action] forwards it like the other four. *)
Lemma unmaximize_is_forwarded :
  ~ In "unmaximize" simple_commands /\
  execute_action Sample.bus "unmaximize" 7 Sample.connected =
    (Ret tt,
     called Sample.connected (Call (full_name "Unmaximize") [VU32 7])
       (GOk [])).
Proof.
  split.
  - unfold simple_commands. simpl.
    intros [H|[H|[H|[H|[]]]]]; discriminate H.
  - reflexivity.
Qed.

(** When the extension is not there, the List call fails, the fetch gives
    None, and search answers with a result of its own: an output beyond the
    log record. *)
Lemma search_failure_yields_result :
  fst (get_all_windows_with_details Sample.loads Sample.bus_down
         Sample.connected) = Ret None /\
  fst (search Sample.loads Sample.bus_down Sample.repr "w "
         Sample.connected) = ([error_result], Ret tt) /\
  [error_result] <> [].
Proof.
  split; [reflexivity|]. split; [reflexivity|]. discriminate.
Qed.


Lemma remote_method_names_witness :
  Sample.loads Sample.list_text = Some Sample.basic_windows /\
  In "GetDetails" remote_methods /\
  exists es,
    In (full_name "GetDetails")
       (methods_called
          (session Sample.loads Sample.bus Sample.connect Sample.repr es
             Sample.fresh)).
Proof.
  split; [reflexivity|].
  split; [unfold remote_methods; simpl; auto|].
  apply (proj2 remote_method_names Sample.loads eq_refl "GetDetails").
  unfold remote_methods. simpl. auto.
Defined.

Lemma get_all_windows_two_steps_witness :
  let wins := [ JObj [("id", JInt 7)]; JObj [("id", JInt 0)];
                JObj [("id", JInt 9)]; JObj [("id", JInt 11)] ] in
  _proxy Sample.connected
    = Some (Proxy DBUS_DESTINATION DBUS_OBJECT_PATH DBUS_INTERFACE_NAME) /\
  reply_text (Sample.bus (calls Sample.connected) list_call)
    = Some Sample.list_text /\
  Sample.loads Sample.list_text = Some (JArr wins) /\
  Forall (fun win => listed_window win = true) wins /\
  exists s' gd,
    get_all_windows_with_details Sample.loads Sample.bus Sample.connected =
      (Ret (Some (flat_map (decoded Sample.loads) (map snd gd))), s') /\
    calls s' =
      (calls Sample.connected
         ++ (list_call, Sample.bus (calls Sample.connected) list_call)
            :: gd)%list /\
    map fst gd = requested wins /\
    gd = answers Sample.bus
           (calls Sample.connected
              ++ [(list_call, Sample.bus (calls Sample.connected) list_call)])
           (requested wins).
Proof.
  intros wins.
  assert (Hall : Forall (fun win => listed_window win = true) wins)
    by (repeat constructor).
  split; [reflexivity|]. split; [reflexivity|]. split; [reflexivity|].
  split; [exact Hall|].
  apply (@get_all_windows_two_steps Sample.loads Sample.bus Sample.connected
           (Proxy DBUS_DESTINATION DBUS_OBJECT_PATH DBUS_INTERFACE_NAME)
           Sample.list_text wins eq_refl eq_refl eq_refl Hall).
Defined.

Lemma execute_action_forwards_witness :
  _proxy Sample.connected
    = Some (Proxy DBUS_DESTINATION DBUS_OBJECT_PATH DBUS_INTERFACE_NAME) /\
  0 <= 7 <= uint32_max /\
  In "unmaximize" forwarded_actions /\
  exists c lg,
    remote_call_of "unmaximize" 7 = Some c /\
    execute_action Sample.bus "unmaximize" 7 Sample.connected =
      (Ret tt,
       State (Some (Proxy DBUS_DESTINATION DBUS_OBJECT_PATH
                      DBUS_INTERFACE_NAME))
             (calls Sample.connected
                ++ [(c, Sample.bus (calls Sample.connected) c)]) lg).
Proof.
  assert (Hr : 0 <= 7 <= uint32_max) by (unfold uint32_max; lia).
  assert (Hin : In "unmaximize" forwarded_actions)
    by (unfold forwarded_actions; simpl; auto).
  split; [reflexivity|]. split; [exact Hr|]. split; [exact Hin|].
  apply (proj1 (@execute_action_forwards Sample.bus "unmaximize" 7
                  Sample.connected _ eq_refl Hr) Hin).
Defined.

Lemma failures_logged_and_reported_witness :
  triggered "w " = true /\
  get_all_windows_with_details Sample.loads Sample.bus_down Sample.connected
    = (Ret None,
       logged (called Sample.connected list_call
                 (Sample.bus_down [] list_call))
         (LogCallFailed "List"
            "The name org.gnome.Shell was not provided by any .service files"))
  /\
  search Sample.loads Sample.bus_down Sample.repr "w " Sample.connected =
    (([error_result], Ret tt),
     logged (called Sample.connected list_call
               (Sample.bus_down [] list_call))
       (LogCallFailed "List"
          "The name org.gnome.Shell was not provided by any .service files")).
Proof.
  split; [reflexivity|]. split; [reflexivity|].
  destruct failures_logged_and_reported
    as (_ & _ & _ & _ & _ & Hsearch & _).
  apply (Hsearch Sample.loads Sample.bus_down Sample.repr "w "
           Sample.connected _ eq_refl eq_refl).
Defined.



Lemma search_keyword_gate_witness :
  (triggered "window" = false \/ In "window" keywords) /\
  search Sample.loads Sample.bus Sample.repr "window" Sample.connected =
    (([], Ret tt), Sample.connected).
Proof.
  split.
  - right. unfold keywords. simpl. auto.
  - apply search_keyword_gate. left. reflexivity.
Defined.



(** ** What a launch does on the bus *)

Section LaunchEffects.

Variable bus : list (call * reply) -> call -> reply.

Lemma execute_action_out_of_range action win_id s :
  ~ 0 <= win_id <= uint32_max ->
  execute_action bus action win_id s = (Raise OverflowError, s).
Proof.
  intros H. unfold execute_action, bind, lift, action_map.
  rewrite (variant_u_int_out_of_range H). reflexivity.
Qed.

Lemma execute_action_no_proxy action win_id s :
  _proxy s = None -> 0 <= win_id <= uint32_max ->
  exists lg,
    execute_action bus action win_id s = (Ret tt, State None (calls s) lg).
Proof.
  intros Hp Hr. destruct (action_map_remote_call action Hr) as (t & Ht & _).
  unfold execute_action, bind, lift. rewrite Ht.
  destruct (assoc action t) as [[method_name ps]|].
  - rewrite (call_method_no_proxy bus method_name ps s Hp).
    unfold ret, logged. rewrite Hp. eexists. reflexivity.
  - unfold logger. rewrite Hp. eexists. reflexivity.
Qed.

Lemma launch_error_id (W : Type) (window : W) id s :
  PyStr.startswith id "error:" = true -> launch bus window id s = (Ret tt, s).
Proof. intros H. unfold launch. rewrite H. reflexivity. Qed.

Lemma launch_unparsed (W : Type) (window : W) id s :
  PyStr.startswith id "error:" = false -> parse_id id = None ->
  launch bus window id s = (Ret tt, logged s (LogParseId id ValueError)).
Proof.
  intros He Hp. unfold launch. rewrite He.
  unfold parse_id in Hp. unfold try_except.
  destruct (PyStr.split ":" id) as [|action [|win_id_str [|x l]]];
    try reflexivity.
  destruct (PyStr.to_int win_id_str); [discriminate|reflexivity].
Qed.

Lemma launch_out_of_range (W : Type) (window : W) id action win_id s :
  PyStr.startswith id "error:" = false ->
  parse_id id = Some (action, win_id) ->
  ~ 0 <= win_id <= uint32_max ->
  launch bus window id s = (Raise OverflowError, s).
Proof.
  intros He Hp Hr. rewrite (launch_well_formed bus window id s He Hp).
  unfold try_except. rewrite (execute_action_out_of_range action s Hr).
  reflexivity.
Qed.

Lemma in_range_dec win_id :
  (0 <=? win_id) && (win_id <=? uint32_max) = true <->
  0 <= win_id <= uint32_max.
Proof.
  rewrite andb_true_iff, !Z.leb_le. tauto.
Qed.


Lemma launch_calls_made (W : Type) (window : W) id s :
  calls (snd (launch bus window id s)) =
    (calls s ++ answers bus (calls s) (launch_calls s id))%list.
Proof.
  unfold launch_calls. destruct (PyStr.startswith id "error:") eqn:He.
  - rewrite (launch_error_id window id s He). simpl.
    rewrite app_nil_r. reflexivity.
  - destruct (parse_id id) as [[action win_id]|] eqn:Hp.
    + destruct ((0 <=? win_id) && (win_id <=? uint32_max)) eqn:Hr.
      * apply in_range_dec in Hr.
        rewrite (launch_well_formed bus window id s He Hp).
        unfold try_except. destruct (_proxy s) as [p|] eqn:Hpx.
        -- pose proof (execute_action_connected bus action s Hpx Hr) as Hx.
           destruct (remote_call_of action win_id) as [c|].
           ++ destruct Hx as (_ & lg & Hx). rewrite Hx. reflexivity.
           ++ destruct Hx as (_ & Hx). rewrite Hx. simpl.
              rewrite app_nil_r. reflexivity.
        -- destruct (execute_action_no_proxy action s Hpx Hr) as (lg & Hx).
           rewrite Hx. simpl. rewrite app_nil_r. reflexivity.
      * assert (Hn : ~ 0 <= win_id <= uint32_max).
        { intros Hc. apply in_range_dec in Hc. congruence. }
        rewrite (launch_out_of_range window id s He Hp Hn).
        destruct (_proxy s); simpl; rewrite app_nil_r; reflexivity.
    + rewrite (launch_unparsed window id s He Hp). simpl.
      rewrite app_nil_r. reflexivity.
Qed.

Lemma launch_calls_wire s id :
  Forall wire_call (launch_calls s id).
Proof.
  unfold launch_calls. destruct (PyStr.startswith id "error:");
    [constructor|].
  destruct (parse_id id) as [[action win_id]|]; [|constructor].
  destruct (_proxy s); [|constructor].
  destruct ((0 <=? win_id) && (win_id <=? uint32_max)) eqn:Hr;
    [|constructor].
  apply in_range_dec in Hr.
  destruct (remote_call_of action win_id) as [c|] eqn:Hc; [|constructor].
  constructor; [|constructor]. right. exists action, win_id. auto.
Qed.


End LaunchEffects.

(** ** What a search does on the bus *)

Section SearchTraffic.

Variable json_loads : string -> option json.
Variable bus : list (call * reply) -> call -> reply.
Variable repr_container : json -> string.

Lemma extends_by_refl P s : extends_by P s s.
Proof. exists []. rewrite app_nil_r. split; [reflexivity|constructor]. Qed.

Lemma extends_by_trans P s1 s2 s3 :
  extends_by P s1 s2 -> extends_by P s2 s3 -> extends_by P s1 s3.
Proof.
  intros (n1 & H1 & K1) (n2 & H2 & K2). exists (n1 ++ n2)%list. split.
  - rewrite H2, H1, app_assoc. reflexivity.
  - apply Forall_app. split; assumption.
Qed.

Lemma makes_only_ret P A (a : A) : makes_only P (ret a).
Proof. intros s. apply extends_by_refl. Qed.

Lemma extends_by_logged P s r : extends_by P s (logged s r).
Proof.
  exists []. simpl. rewrite app_nil_r. split; [reflexivity|constructor].
Qed.

Lemma makes_only_logger P r : makes_only P (logger r).
Proof. intros s. apply extends_by_logged. Qed.

Lemma makes_only_bind P A B (m : M A) (k : A -> M B) :
  makes_only P m -> (forall a, makes_only P (k a)) ->
  makes_only P (bind m k).
Proof.
  intros Hm Hk s. unfold bind. specialize (Hm s).
  destruct (m s) as [[a|e] s1]; simpl in *.
  - eapply extends_by_trans; [exact Hm|]. apply Hk.
  - exact Hm.
Qed.

(** Binding a pure outcome: the rest runs only on a returned value. *)
Lemma makes_only_lift P A B (o : outcome A) (k : A -> M B) :
  (forall a, o = Ret a -> makes_only P (k a)) ->
  makes_only P (bind (lift o) k).
Proof.
  intros Hk s. unfold bind, lift. destruct o as [a|e].
  - apply (Hk a eq_refl).
  - apply extends_by_refl.
Qed.

Lemma makes_only_call_method (P : call -> Prop) method_name ps :
  P (Call (full_name method_name) ps) ->
  makes_only P (_call_method bus method_name ps).
Proof.
  intros HP s. destruct (_proxy s) as [p|] eqn:Hp.
  - rewrite (call_method_connected bus method_name ps s Hp). cbv zeta.
    assert (Hk : extends_by P s
              (called s (Call (full_name method_name) ps)
                 (bus (calls s) (Call (full_name method_name) ps)))).
    { eexists. split; [reflexivity|]. constructor; [exact HP|constructor]. }
    destruct (bus (calls s) (Call (full_name method_name) ps))
      as [[|first rest]|e]; exact Hk.
  - rewrite (call_method_no_proxy bus method_name ps s Hp).
    apply extends_by_logged.
Qed.

(** A ["u"] variant built from a JSON value holds a number in range. *)
Lemma variant_u_fits v u :
  variant_u v = Ret u -> exists n, 0 <= n <= uint32_max /\ u = VU32 n.
Proof.
  destruct v as [|b|n| | |]; simpl; try discriminate.
  - intros H. injection H as <-. exists (if b then 1 else 0).
    split; [|reflexivity]. unfold uint32_max. destruct b; lia.
  - unfold variant_u_int.
    destruct ((0 <=? n) && (n <=? uint32_max)) eqn:E; [|discriminate].
    intros H. injection H as <-. exists n. split; [|reflexivity].
    apply in_range_dec. exact E.
Qed.

Lemma details_step_details_only win detailed :
  makes_only details_call (details_step json_loads bus win detailed).
Proof.
  unfold details_step. apply makes_only_lift. intros win_id _.
  destruct (negb (Py.truthy win_id)); [apply makes_only_ret|].
  apply makes_only_lift. intros u Hu.
  apply makes_only_bind.
  - apply makes_only_call_method.
    destruct (variant_u_fits _ Hu) as (n & Hn & ->). exists n. auto.
  - intros details_json. destruct (nonempty details_json) as [t|];
      [|apply makes_only_ret].
    destruct (json_loads t); [apply makes_only_ret|].
    apply makes_only_bind; [apply makes_only_logger|]. intros _.
    apply makes_only_ret.
Qed.

Lemma details_loop_details_only wins :
  forall detailed,
    makes_only details_call (details_loop json_loads bus wins detailed).
Proof.
  induction wins as [|win rest IH]; intros detailed; simpl.
  - apply makes_only_ret.
  - apply makes_only_bind; [apply details_step_details_only|].
    intros d. apply IH.
Qed.

(** With a proxy the fetch starts with the List call, made once; what
    follows are GetDetails calls. *)
Lemma get_all_windows_list_first s p :
  _proxy s = Some p ->
  extends_by details_call
    (called s list_call (bus (calls s) list_call))
    (snd (get_all_windows_with_details json_loads bus s)).
Proof.
  intros Hp. unfold get_all_windows_with_details, bind.
  rewrite (call_method_connected bus "List" [] s Hp). cbv zeta.
  fold list_call.
  assert (Hk : forall a s1,
             extends_by details_call s1
               (snd (match nonempty a with
                     | Some text =>
                         match json_loads text with
                         | Some basic_windows =>
                             wins <- lift (Py.iter basic_windows) ;;
                             detailed_windows <-
                               details_loop json_loads bus wins [] ;;
                             ret (Some detailed_windows)
                         | None => logger LogListJson ;;; ret None
                         end
                     | None => ret None
                     end s1))).
  { intros a. destruct (nonempty a) as [t|]; [|apply makes_only_ret].
    destruct (json_loads t) as [basic|].
    - apply makes_only_lift. intros wins _.
      apply makes_only_bind; [apply details_loop_details_only|]. intros d.
      apply makes_only_ret.
    - apply makes_only_bind; [apply makes_only_logger|]. intros _.
      apply makes_only_ret. }
  destruct (bus (calls s) list_call) as [[|first rest]|e].
  - apply (Hk None).
  - apply (Hk (Some first)).
  - eapply extends_by_trans; [apply extends_by_logged|].
    apply (Hk None).
Qed.

Lemma get_all_windows_fetch_only s :
  extends_by fetch_call s
    (snd (get_all_windows_with_details json_loads bus s)).
Proof.
  destruct (_proxy s) as [p|] eqn:Hp.
  - destruct (get_all_windows_list_first s Hp) as (new & Hc & Hf).
    exists ((list_call, bus (calls s) list_call) :: new). split.
    + rewrite Hc. simpl. rewrite <- app_assoc. reflexivity.
    + constructor; [left; reflexivity|].
      eapply Forall_impl; [|exact Hf]. intros cr H. right. exact H.
  - destruct (get_all_windows_unusable json_loads bus s) as (s1 & Hr & _ & Hc).
    + rewrite Hp. exact I.
    + rewrite Hp in Hc. rewrite Hr. simpl. exists [].
      rewrite app_nil_r. split; [exact Hc|constructor].
Qed.

Lemma search_fetch_only query s :
  extends_by fetch_call s
    (snd (search json_loads bus repr_container query s)).
Proof.
  unfold search.
  destruct (find_trigger keywords query =? EmptyString)%string;
    [apply extends_by_refl|].
  pose proof (get_all_windows_fetch_only s) as Hk.
  destruct (get_all_windows_with_details json_loads bus s)
    as [[[windows|]|e] s1]; exact Hk.
Qed.

(** A search only reads: whatever the query, the replies and the decoder,
    the calls it makes are List (without parameters) and GetDetails (with one
    window id in 0..4294967295); it never invokes Activate, Close, Maximize,
    Unmaximize or Minimize, and it leaves the proxy as it was. *)
Theorem search_only_reads query s :
  let s' := snd (search json_loads bus repr_container query s) in
  _proxy s' = _proxy s /\
  exists new,
    calls s' = (calls s ++ new)%list /\
    Forall (fun cr => fetch_call (fst cr)) new /\
    forall action win_id c r,
      remote_call_of action win_id = Some c -> ~ In (c, r) new.
Proof.
  intros s'. split; [apply (keeps_search json_loads bus repr_container)|].
  destruct (search_fetch_only query s) as (new & Hc & Hf).
  exists new. split; [exact Hc|]. split; [exact Hf|].
  intros action win_id c r Hr Hin.
  rewrite Forall_forall in Hf. specialize (Hf _ Hin). simpl in Hf.
  unfold remote_call_of in Hr.
  repeat match type of Hr with
         | (if ?b then _ else _) = _ => destruct b
         end;
    try discriminate Hr; injection Hr as <-;
    (destruct Hf as [Hf|(n & _ & Hf)]; discriminate Hf).
Qed.

(** With a proxy, a triggered search starts with the List call, made
    exactly once whatever comes back; every later call of the search is a
    GetDetails call for a window id in 0..4294967295. *)
Theorem search_asks_list_first query s p :
  _proxy s = Some p -> triggered query = true ->
  exists rest,
    calls (snd (search json_loads bus repr_container query s)) =
      (calls s ++ (list_call, bus (calls s) list_call) :: rest)%list /\
    Forall (fun cr => details_call (fst cr)) rest.
Proof.
  intros Hp Ht.
  rewrite (search_triggered json_loads bus repr_container query s Ht).
  destruct (get_all_windows_list_first s Hp) as (rest & Hc & Hf).
  exists rest. split; [|exact Hf].
  destruct (get_all_windows_with_details json_loads bus s)
    as [[[windows|]|e] s1]; simpl in *; rewrite Hc, <- app_assoc;
    reflexivity.
Qed.

End SearchTraffic.

(** ** Without a proxy, and with unusual List payloads *)

Section EdgeCases.

Variable json_loads : string -> option json.
Variable bus : list (call * reply) -> call -> reply.
Variable new_for_bus_sync : string -> string -> string -> glib DBusProxy.
Variable repr_container : json -> string.

Lemma search_no_proxy query s :
  _proxy s = None -> triggered query = true ->
  search json_loads bus repr_container query s =
    (([error_result], Ret tt), logged s LogNoProxy).
Proof.
  intros Hp Ht.
  rewrite (search_triggered json_loads bus repr_container query s Ht).
  unfold get_all_windows_with_details, bind.
  rewrite (call_method_no_proxy bus "List" [] s Hp). reflexivity.
Qed.

(** Without a proxy a triggered search answers with the error result alone:
    it makes no call on the bus and writes exactly one warning. *)
Theorem search_without_proxy query s :
  _proxy s = None -> triggered query = true ->
  search json_loads bus repr_container query s =
    (([error_result], Ret tt), logged s LogNoProxy).
Proof.
  intros Hp Ht. unfold search. rewrite find_trigger_triggered, Ht.
  simpl negb. cbv iota.
  unfold get_all_windows_with_details, bind.
  rewrite (call_method_no_proxy bus "List" [] s Hp). reflexivity.
Qed.

Lemma run_entry_no_proxy s e :
  _proxy s = None -> e <> Init ->
  _proxy (run_entry json_loads bus new_for_bus_sync repr_container s e) = None
  /\ calls (run_entry json_loads bus new_for_bus_sync repr_container s e)
     = calls s.
Proof.
  intros Hp He. destruct e as [|query|id]; [contradiction| |]; simpl.
  - destruct (triggered query) eqn:Ht.
    + rewrite (search_no_proxy query s Hp Ht). simpl. auto.
    + rewrite (search_untriggered json_loads bus repr_container query s Ht).
      simpl. auto.
  - pose proof (keeps_launch bus tt id s) as (Hk & new & Hc & _).
    split; [congruence|].
    unfold PyStr.startswith in *.
    destruct (PyStr.startswith id "error:") eqn:Herr.
    + rewrite (launch_error_id bus tt id s Herr). reflexivity.
    + destruct (parse_id id) as [[action win_id]|] eqn:Hparse.
      * rewrite (launch_well_formed bus tt id s Herr Hparse).
        unfold try_except.
        destruct ((0 <=? win_id) && (win_id <=? uint32_max)) eqn:Hr.
        -- apply in_range_dec in Hr.
           destruct (execute_action_no_proxy bus action s Hp Hr)
             as (lg & Hx).
           rewrite Hx. reflexivity.
        -- assert (Hn : ~ 0 <= win_id <= uint32_max).
           { intros Hc'. apply in_range_dec in Hc'. congruence. }
           rewrite (execute_action_out_of_range bus action s Hn).
           reflexivity.
      * rewrite (launch_unparsed bus tt id s Herr Hparse). reflexivity.
Qed.

(** When the proxy could not be built, nothing that follows reaches the
    bus: after a failed construction, no sequence of searches and launches
    makes a call, and the proxy stays absent. *)
Theorem failed_construction_never_calls e es s :
  new_for_bus_sync DBUS_DESTINATION DBUS_OBJECT_PATH DBUS_INTERFACE_NAME
    = GError e ->
  Forall (fun entry => entry <> Init) es ->
  let s' := session json_loads bus new_for_bus_sync repr_container
              (Init :: es) s in
  _proxy s' = None /\ calls s' = calls s.
Proof.
  intros Hc Hes. unfold session. simpl fold_left.
  assert (H0 : _proxy (snd (WindowCommander__init__ new_for_bus_sync s))
               = None /\
               calls (snd (WindowCommander__init__ new_for_bus_sync s))
               = calls s).
  { unfold WindowCommander__init__, WindowCommanderDBus__init__, bind,
      set_proxy. simpl. rewrite Hc. simpl. auto. }
  revert H0.
  generalize (snd (WindowCommander__init__ new_for_bus_sync s)) as s1.
  induction Hes as [|entry rest He Hrest IH]; intros s1 (Hp & Hcalls).
  - simpl. auto.
  - simpl. apply IH.
    destruct (run_entry_no_proxy s1 Hp He) as (Hp' & Hc').
    split; [exact Hp'|congruence].
Qed.

(** A List reply that decodes to something empty (an empty list, object or
    text) is not a failure: the fetch returns the empty list after the one
    List call, and a triggered search yields nothing at all, no error result
    and no log record. *)
Theorem empty_window_list_is_valid query s p text basic :
  _proxy s = Some p ->
  reply_text (bus (calls s) list_call) = Some text ->
  json_loads text = Some basic ->
  Py.iter basic = Ret [] ->
  triggered query = true ->
  get_all_windows_with_details json_loads bus s =
    (Ret (Some []), called s list_call (bus (calls s) list_call)) /\
  search json_loads bus repr_container query s =
    (([], Ret tt), called s list_call (bus (calls s) list_call)).
Proof.
  intros Hp Ht Hl Hi Hq.
  assert (Hg : get_all_windows_with_details json_loads bus s =
               (Ret (Some []),
                called s list_call (bus (calls s) list_call))).
  { unfold get_all_windows_with_details, bind.
    rewrite (call_method_connected bus "List" [] s Hp). cbv zeta.
    fold list_call.
    destruct (bus (calls s) list_call) as [[|[|ch t] rest]|e];
      try discriminate Ht.
    simpl in Ht. injection Ht as <-. unfold ret at 1. unfold nonempty.
    rewrite Hl, Hi. reflexivity. }
  split; [exact Hg|].
  rewrite (search_triggered json_loads bus repr_container query s Hq), Hg.
  reflexivity.
Qed.

(** A List reply that decodes to null, a boolean or a number is not caught:
    the loop over it raises TypeError right after the List call, the fetch
    returns nothing, and the search raises the same exception without a
    result. *)
Theorem scalar_window_list_raises query s p text basic :
  _proxy s = Some p ->
  reply_text (bus (calls s) list_call) = Some text ->
  json_loads text = Some basic ->
  numeric basic = true \/ basic = JNull ->
  triggered query = true ->
  get_all_windows_with_details json_loads bus s =
    (Raise TypeError, called s list_call (bus (calls s) list_call)) /\
  search json_loads bus repr_container query s =
    (([], Raise TypeError), called s list_call (bus (calls s) list_call)).
Proof.
  intros Hp Ht Hl Hb Hq.
  assert (Hi : Py.iter basic = Raise TypeError).
  { destruct Hb as [Hb| ->]; [|reflexivity].
    destruct basic; try discriminate Hb; reflexivity. }
  assert (Hg : get_all_windows_with_details json_loads bus s =
               (Raise TypeError,
                called s list_call (bus (calls s) list_call))).
  { unfold get_all_windows_with_details, bind.
    rewrite (call_method_connected bus "List" [] s Hp). cbv zeta.
    fold list_call.
    destruct (bus (calls s) list_call) as [[|[|ch t] rest]|e];
      try discriminate Ht.
    simpl in Ht. injection Ht as <-. unfold ret at 1. unfold nonempty.
    rewrite Hl, Hi. reflexivity. }
  split; [exact Hg|].
  rewrite (search_triggered json_loads bus repr_container query s Hq), Hg.
  reflexivity.
Qed.

(** An entry of the List reply that is not an object stops the fetch: the
    loop raises AttributeError at that entry; when it is the first entry, no
    GetDetails call has been made. *)
Theorem non_object_entry_raises s p text win rest :
  _proxy s = Some p ->
  reply_text (bus (calls s) list_call) = Some text ->
  json_loads text = Some (JArr (win :: rest)) ->
  match win with JObj _ => False | _ => True end ->
  get_all_windows_with_details json_loads bus s =
    (Raise AttributeError, called s list_call (bus (calls s) list_call)).
Proof.
  intros Hp Ht Hl Hw.
  unfold get_all_windows_with_details, bind.
  rewrite (call_method_connected bus "List" [] s Hp). cbv zeta.
  fold list_call.
  destruct (bus (calls s) list_call) as [[|[|ch t] rest']|e];
    try discriminate Ht.
  simpl in Ht. injection Ht as <-. unfold ret at 1. unfold nonempty.
  rewrite Hl. unfold lift, Py.iter. simpl details_loop.
  unfold bind, details_step, lift.
  destruct win; try contradiction; reflexivity.
Qed.

End EdgeCases.

(** ** More facts about texts *)

Lemma lower_char_idem c :
  PyStr.lower_char (PyStr.lower_char c) = PyStr.lower_char c.
Proof. destruct c as [[] [] [] [] [] [] [] []]; reflexivity. Qed.

Lemma lower_char_space c :
  PyStr.is_space (PyStr.lower_char c) = PyStr.is_space c.
Proof. destruct c as [[] [] [] [] [] [] [] []]; reflexivity. Qed.

Lemma lower_idem s : PyStr.lower (PyStr.lower s) = PyStr.lower s.
Proof.
  induction s as [|c r IH]; simpl; [reflexivity|].
  rewrite lower_char_idem, IH. reflexivity.
Qed.

Lemma lower_drop n s :
  PyStr.drop n (PyStr.lower s) = PyStr.lower (PyStr.drop n s).
Proof.
  revert s. induction n as [|n IH]; intros s; [reflexivity|].
  destruct s as [|c r]; simpl; [reflexivity|apply IH].
Qed.

Lemma lower_lstrip s :
  PyStr.lstrip (PyStr.lower s) = PyStr.lower (PyStr.lstrip s).
Proof.
  induction s as [|c r IH]; simpl; [reflexivity|].
  rewrite lower_char_space. destruct (PyStr.is_space c);
    [exact IH|reflexivity].
Qed.

Lemma lower_rstrip s :
  PyStr.rstrip (PyStr.lower s) = PyStr.lower (PyStr.rstrip s).
Proof.
  induction s as [|c r IH]; simpl; [reflexivity|].
  rewrite IH, lower_char_space.
  destruct (PyStr.rstrip r); simpl; [|reflexivity].
  destruct (PyStr.is_space c); reflexivity.
Qed.

Lemma lower_strip s :
  PyStr.strip (PyStr.lower s) = PyStr.lower (PyStr.strip s).
Proof.
  unfold PyStr.strip. rewrite lower_lstrip, lower_rstrip. reflexivity.
Qed.

Lemma find_trigger_lower kws query :
  find_trigger kws (PyStr.lower query) = find_trigger kws query.
Proof.
  induction kws as [|k rest IH]; simpl; [reflexivity|].
  rewrite lower_idem, IH. reflexivity.
Qed.

Lemma find_empty s : PyStr.find s EmptyString = 0.
Proof. destruct s; reflexivity. Qed.

Lemma append_length a b :
  String.length (a ++ b) = (String.length a + String.length b)%nat.
Proof. induction a as [|c a IH]; simpl; [reflexivity|]. rewrite IH. lia. Qed.

(** When [find] gives an index, the text occurs there and not before. *)
Lemma find_first s sub :
  PyStr.find s sub <> -1 -> first_at sub s (PyStr.find s sub).
Proof.
  induction s as [|c r IH].
  - rewrite find_nil. destruct (String.prefix sub EmptyString) eqn:E;
      [|intros H; contradiction H; reflexivity].
    intros _. apply prefix_occurs in E. destruct E as (post & E).
    exists EmptyString, post. split; [exact E|]. split; [reflexivity|].
    intros; simpl; lia.
  - rewrite find_cons. destruct (String.prefix sub (String c r)) eqn:E.
    + intros _. apply prefix_occurs in E. destruct E as (post & E).
      exists EmptyString, post. split; [exact E|]. split; [reflexivity|].
      intros; simpl; lia.
    + destruct (PyStr.find r sub =? -1) eqn:E1;
        [intros H; contradiction H; reflexivity|].
      intros _. apply Z.eqb_neq in E1.
      destruct (IH E1) as (pre & post & Hs & Hi & Hmin).
      exists (String c pre), post. split; [simpl; rewrite Hs; reflexivity|].
      split; [rewrite Hi; simpl String.length; lia|].
      intros pre' post' Hs'. destruct pre' as [|c' pre'].
      * exfalso. assert (String.prefix sub (String c r) = true)
          by (apply prefix_occurs; exists post'; exact Hs').
        congruence.
      * simpl in Hs'. injection Hs' as _ Hs'. simpl.
        specialize (Hmin pre' post' Hs'). lia.
Qed.

(** ** Edge cases of the search results *)

Section SearchEdges.

Variable json_loads : string -> option json.
Variable bus : list (call * reply) -> call -> reply.
Variable repr_container : json -> string.

(** The case of the query does not matter: a query and its lower-case form
    give the same results, the same calls and the same log. *)
Theorem search_ignores_query_case query s :
  search json_loads bus repr_container (PyStr.lower query) s =
  search json_loads bus repr_container query s.
Proof.
  unfold search. rewrite find_trigger_lower.
  rewrite lower_drop, lower_strip, lower_idem. reflexivity.
Qed.

(** A query made of a trigger word and white space only lists every
    window: each fetched window with a truthy id yields its three results,
    with offset 0. *)
Theorem bare_trigger_lists_all query s windows s' :
  triggered query = true ->
  remaining_term query = EmptyString ->
  get_all_windows_with_details json_loads bus s = (Ret (Some windows), s') ->
  Forall (fun win => window_shape win = true) windows ->
  search json_loads bus repr_container query s =
    ((flat_map (fun win => if Py.truthy (id_of win)
                           then three_results repr_container win 0
                           else []) windows, Ret tt), s').
Proof.
  intros Ht Hr Hf Hs.
  rewrite (search_shaped json_loads bus repr_container query s Ht Hf Hs).
  rewrite Hr. f_equal. f_equal. apply flat_map_ext. intros win.
  unfold expected_results, window_offset. simpl PyStr.lower.
  rewrite !find_empty. simpl. destruct (Py.truthy (id_of win)); reflexivity.
Qed.

(** The offset of a result locates the search term: it is the first index
    of the term in the lower-case title when the term occurs there, and
    otherwise its first index in the lower-case wm_class, although the
    result still shows the title. *)
Theorem result_offset_locates_term search_term win r :
  window_shape win = true ->
  In r (fst (window_results repr_container search_term win)) ->
  first_at search_term (PyStr.lower (title_of win)) (SearchResult.offset r)
  \/ (~ occurs search_term (PyStr.lower (title_of win)) /\
      first_at search_term (PyStr.lower (class_of win))
        (SearchResult.offset r)).
Proof.
  intros Hs. rewrite (window_results_shaped repr_container search_term win Hs).
  simpl fst. unfold expected_results.
  destruct (window_offset search_term win =? -1) eqn:Hoff;
    [contradiction|].
  destruct (Py.truthy (id_of win)); [|contradiction]. simpl.
  intros Hr.
  assert (Ho : SearchResult.offset r = window_offset search_term win).
  { destruct Hr as [<-|[<-|[<-|[]]]]; try reflexivity.
    destruct (is_maximized win); reflexivity. }
  rewrite Ho. apply Z.eqb_neq in Hoff. unfold window_offset in *.
  destruct (PyStr.find (PyStr.lower (title_of win)) search_term =? -1)
    eqn:E.
  - right. apply Z.eqb_eq in E. split; [apply find_none; exact E|].
    apply find_first. exact Hoff.
  - left. apply Z.eqb_neq in E. apply find_first. exact E.
Qed.

(** A maximized field that is not a number is found out late: a matching
    window with a truthy id yields its activate and close results, then the
    comparison raises TypeError, and the windows after it are not
    reached. *)
Theorem bad_maximized_raises_after_two search_term win rest :
  text_fields win = true ->
  numeric (field_of win "maximized" (JInt 0)) = false ->
  window_offset search_term win <> -1 ->
  Py.truthy (id_of win) = true ->
  search_loop repr_container search_term (win :: rest) =
    (firstn 2 (three_results repr_container win
                 (window_offset search_term win)),
     Raise TypeError).
Proof.
  destruct win as [| | | | |kv]; try discriminate.
  unfold text_fields, window_offset, three_results, title_of, class_of,
    id_of, is_maximized, field_of.
  intros Hf Hn Hoff Hid. apply Z.eqb_neq in Hoff.
  simpl search_loop. unfold window_results, Py.get.
  destruct (Py.lookup "title" kv) as [[| | |t| |]|]; try discriminate;
    destruct (Py.lookup "wm_class" kv) as [[| | |c| |]|]; try discriminate;
    clear Hf;
    destruct (Py.lookup "id" kv) as [v|]; try discriminate Hid;
    unfold text_of, gen_bind, gen_lift, Py.as_str, yield, gen_ret in *;
    rewrite Hoff, Hid; simpl negb; cbv iota beta;
    destruct (Py.lookup "maximized" kv) as [[|b|n| | |]|];
    try discriminate Hn; reflexivity.
Qed.

(** A title or wm_class that is present but is not a text (an explicit
    null, for one) is not replaced by the default: the loop raises
    AttributeError at that window before it yields anything for it, and the
    same holds for a window that is not an object. *)
Theorem non_text_field_raises search_term win rest :
  text_fields win = false ->
  search_loop repr_container search_term (win :: rest) =
    ([], Raise AttributeError).
Proof.
  intros Hf. simpl search_loop. unfold window_results, Py.get.
  destruct win as [| | | | |kv]; try reflexivity.
  unfold text_fields in Hf.
  destruct (Py.lookup "title" kv) as [[| | |t| |]|];
    destruct (Py.lookup "wm_class" kv) as [[| | |c| |]|];
    try discriminate Hf; reflexivity.
Qed.

End SearchEdges.

(** ** What can be on the wire *)

Section Wire.

Variable json_loads : string -> option json.
Variable bus : list (call * reply) -> call -> reply.
Variable new_for_bus_sync : string -> string -> string -> glib DBusProxy.
Variable repr_container : json -> string.

Lemma answers_forall (P : call -> Prop) history cs :
  Forall P cs -> Forall (fun cr => P (fst cr)) (answers bus history cs).
Proof.
  intros H. revert history. induction H as [|c rest Hc Hrest IH];
    intros history; simpl; constructor; auto.
Qed.

Lemma run_entry_wire s e :
  extends_by wire_call s
    (run_entry json_loads bus new_for_bus_sync repr_container s e).
Proof.
  destruct e as [|query|id]; simpl.
  - exists []. rewrite (init_calls new_for_bus_sync s), app_nil_r.
    split; [reflexivity|constructor].
  - destruct (search_fetch_only json_loads bus repr_container query s)
      as (new & Hc & Hf).
    exists new. split; [exact Hc|].
    eapply Forall_impl; [|exact Hf]. intros cr H. left. exact H.
  - exists (answers bus (calls s) (launch_calls s id)).
    split; [apply launch_calls_made|].
    apply answers_forall. apply launch_calls_wire.
Qed.

Lemma wire_call_close c :
  wire_call c -> method c = full_name "Close" ->
  exists n, 0 <= n <= uint32_max /\ params c = [VU32 n; VBool false].
Proof.
  intros [[->|(n & _ & ->)]|(action & n & Hn & Hr)] Hm.
  - discriminate Hm.
  - discriminate Hm.
  - unfold remote_call_of in Hr.
    repeat match type of Hr with
           | (if ?b then _ else _) = _ => destruct b
           end;
      try discriminate Hr; injection Hr as <-; try discriminate Hm.
    exists n. auto.
Qed.

(** Whatever the launcher does with the plugin, every call that reaches the
    bus has the shape the interface expects: List without parameters,
    GetDetails or an action with one window id in 0..4294967295, and Close
    with that id and the flag false, so that a window is never closed by
    force. *)
Theorem session_calls_conform es s :
  exists new,
    calls (session json_loads bus new_for_bus_sync repr_container es s)
      = (calls s ++ new)%list /\
    Forall (fun cr => wire_call (fst cr)) new /\
    forall c r,
      In (c, r) new -> method c = full_name "Close" ->
      exists n, 0 <= n <= uint32_max /\ params c = [VU32 n; VBool false].
Proof.
  assert (H : extends_by wire_call s
                (session json_loads bus new_for_bus_sync repr_container
                   es s)).
  { unfold session. revert s. induction es as [|e rest IH]; intros s; simpl.
    - exists []. rewrite app_nil_r. split; [reflexivity|constructor].
    - destruct (run_entry_wire s e) as (n1 & H1 & K1).
      destruct (IH (run_entry json_loads bus new_for_bus_sync
                      repr_container s e)) as (n2 & H2 & K2).
      exists (n1 ++ n2)%list. split.
      + rewrite H2, H1, app_assoc. reflexivity.
      + apply Forall_app. split; assumption. }
  destruct H as (new & Hc & Hf). exists new. split; [exact Hc|].
  split; [exact Hf|]. intros c r Hin Hm.
  rewrite Forall_forall in Hf. apply (wire_call_close (Hf _ Hin) Hm).
Qed.

End Wire.

(** ** The edge cases, run *)


Lemma search_asks_list_first_witness :
  _proxy Sample.connected
    = Some (Proxy DBUS_DESTINATION DBUS_OBJECT_PATH DBUS_INTERFACE_NAME) /\
  triggered "w " = true /\
  exists rest,
    calls (snd (search Sample.loads Sample.bus Sample.repr "w "
                  Sample.connected)) =
      (calls Sample.connected
         ++ (list_call, Sample.bus (calls Sample.connected) list_call)
            :: rest)%list /\
    Forall (fun cr => details_call (fst cr)) rest.
Proof.
  split; [reflexivity|]. split; [reflexivity|].
  apply (@search_asks_list_first Sample.loads Sample.bus Sample.repr "w "
           Sample.connected _ eq_refl eq_refl).
Defined.

Lemma search_without_proxy_witness :
  _proxy Sample.fresh = None /\
  triggered "w " = true /\
  search Sample.loads Sample.bus Sample.repr "w " Sample.fresh =
    (([error_result], Ret tt), logged Sample.fresh LogNoProxy).
Proof.
  split; [reflexivity|]. split; [reflexivity|].
  apply (@search_without_proxy Sample.loads Sample.bus Sample.repr "w "
           Sample.fresh eq_refl eq_refl).
Defined.

Lemma failed_construction_never_calls_witness :
  let es := [Search "w "; Launch "close:7"; Search "win term"] in
  Sample.connect_fails DBUS_DESTINATION DBUS_OBJECT_PATH DBUS_INTERFACE_NAME
    = GError "Could not connect: No such file or directory" /\
  Forall (fun entry => entry <> Init) es /\
  (let s' := session Sample.loads Sample.bus Sample.connect_fails
               Sample.repr (Init :: es) Sample.fresh in
   _proxy s' = None /\ calls s' = calls Sample.fresh).
Proof.
  intros es.
  assert (Hes : Forall (fun entry => entry <> Init) es)
    by (repeat constructor; discriminate).
  split; [reflexivity|]. split; [exact Hes|].
  apply (@failed_construction_never_calls Sample.loads Sample.bus
           Sample.connect_fails Sample.repr _ es Sample.fresh eq_refl Hes).
Defined.

Lemma empty_window_list_is_valid_witness :
  let bus := Sample.bus_list "[]" in
  _proxy Sample.connected
    = Some (Proxy DBUS_DESTINATION DBUS_OBJECT_PATH DBUS_INTERFACE_NAME) /\
  reply_text (bus (calls Sample.connected) list_call) = Some "[]" /\
  Sample.loads_small "[]" = Some (JArr []) /\
  Py.iter (JArr []) = Ret [] /\
  triggered "w " = true /\
  get_all_windows_with_details Sample.loads_small bus Sample.connected =
    (Ret (Some []),
     called Sample.connected list_call
       (bus (calls Sample.connected) list_call)) /\
  search Sample.loads_small bus Sample.repr "w " Sample.connected =
    (([], Ret tt),
     called Sample.connected list_call
       (bus (calls Sample.connected) list_call)).
Proof.
  intros bus.
  repeat (split; [reflexivity|]).
  apply (@empty_window_list_is_valid Sample.loads_small bus Sample.repr
           "w " Sample.connected _ "[]" (JArr [])
           eq_refl eq_refl eq_refl eq_refl eq_refl).
Defined.

Lemma scalar_window_list_raises_witness :
  let bus := Sample.bus_list "null" in
  _proxy Sample.connected
    = Some (Proxy DBUS_DESTINATION DBUS_OBJECT_PATH DBUS_INTERFACE_NAME) /\
  reply_text (bus (calls Sample.connected) list_call) = Some "null" /\
  Sample.loads_small "null" = Some JNull /\
  (numeric JNull = true \/ JNull = JNull) /\
  triggered "w " = true /\
  get_all_windows_with_details Sample.loads_small bus Sample.connected =
    (Raise TypeError,
     called Sample.connected list_call
       (bus (calls Sample.connected) list_call)) /\
  search Sample.loads_small bus Sample.repr "w " Sample.connected =
    (([], Raise TypeError),
     called Sample.connected list_call
       (bus (calls Sample.connected) list_call)).
Proof.
  intros bus.
  split; [reflexivity|]. split; [reflexivity|]. split; [reflexivity|].
  split; [right; reflexivity|]. split; [reflexivity|].
  apply (@scalar_window_list_raises Sample.loads_small bus Sample.repr
           "w " Sample.connected _ "null" JNull
           eq_refl eq_refl eq_refl (or_intror eq_refl) eq_refl).
Defined.

Lemma non_object_entry_raises_witness :
  let bus := Sample.bus_list "[7]" in
  _proxy Sample.connected
    = Some (Proxy DBUS_DESTINATION DBUS_OBJECT_PATH DBUS_INTERFACE_NAME) /\
  reply_text (bus (calls Sample.connected) list_call) = Some "[7]" /\
  Sample.loads_small "[7]" = Some (JArr [JInt 7]) /\
  get_all_windows_with_details Sample.loads_small bus Sample.connected =
    (Raise AttributeError,
     called Sample.connected list_call
       (bus (calls Sample.connected) list_call)).
Proof.
  intros bus.
  split; [reflexivity|]. split; [reflexivity|]. split; [reflexivity|].
  apply (@non_object_entry_raises Sample.loads_small bus Sample.connected
           _ "[7]" (JInt 7) [] eq_refl eq_refl eq_refl I).
Defined.

Lemma bare_trigger_lists_all_witness :
  let s' := snd (get_all_windows_with_details Sample.loads Sample.bus
                   Sample.connected) in
  let windows := [Sample.window7; Sample.window11] in
  triggered "Window   " = true /\
  remaining_term "Window   " = EmptyString /\
  get_all_windows_with_details Sample.loads Sample.bus Sample.connected
    = (Ret (Some windows), s') /\
  Forall (fun win => window_shape win = true) windows /\
  search Sample.loads Sample.bus Sample.repr "Window   " Sample.connected =
    ((flat_map (fun win => if Py.truthy (id_of win)
                           then three_results Sample.repr win 0
                           else []) windows, Ret tt), s').
Proof.
  intros s' windows.
  assert (Hs : Forall (fun win => window_shape win = true) windows)
    by (repeat constructor).
  split; [reflexivity|]. split; [reflexivity|]. split; [reflexivity|].
  split; [exact Hs|].
  apply (@bare_trigger_lists_all Sample.loads Sample.bus Sample.repr
           "Window   " Sample.connected windows s'
           eq_refl eq_refl eq_refl Hs).
Defined.

Lemma result_offset_locates_term_witness :
  let r := SearchResult.Make "close:11" "Close: Mail"
             "Close Window | Class: Thunderbird" "window-close" 90 false 7 in
  window_shape Sample.window11 = true /\
  In r (fst (window_results Sample.repr "bird" Sample.window11)) /\
  (first_at "bird" (PyStr.lower (title_of Sample.window11))
     (SearchResult.offset r)
   \/ (~ occurs "bird" (PyStr.lower (title_of Sample.window11)) /\
       first_at "bird" (PyStr.lower (class_of Sample.window11))
         (SearchResult.offset r))).
Proof.
  intros r.
  assert (Hin : In r (fst (window_results Sample.repr "bird"
                             Sample.window11)))
    by (right; left; reflexivity).
  split; [reflexivity|]. split; [exact Hin|].
  apply (@result_offset_locates_term Sample.repr "bird" Sample.window11 r
           eq_refl Hin).
Defined.

Lemma bad_maximized_raises_after_two_witness :
  let win := Sample.window_null_maximized in
  text_fields win = true /\
  numeric (field_of win "maximized" (JInt 0)) = false /\
  window_offset "edit" win <> -1 /\
  Py.truthy (id_of win) = true /\
  search_loop Sample.repr "edit" [win; Sample.window7] =
    (firstn 2 (three_results Sample.repr win (window_offset "edit" win)),
     Raise TypeError).
Proof.
  intros win.
  assert (Hoff : window_offset "edit" win <> -1) by discriminate.
  split; [reflexivity|]. split; [reflexivity|]. split; [exact Hoff|].
  split; [reflexivity|].
  apply (@bad_maximized_raises_after_two Sample.repr "edit" win
           [Sample.window7] eq_refl eq_refl Hoff eq_refl).
Defined.

Lemma non_text_field_raises_witness :
  text_fields Sample.window_null_title = false /\
  search_loop Sample.repr "edit"
    [Sample.window_null_title; Sample.window7] = ([], Raise AttributeError).
Proof.
  split; [reflexivity|].
  apply (@non_text_field_raises Sample.repr "edit" Sample.window_null_title
           [Sample.window7] eq_refl).
Defined.

(** ** Window ids that do not fit the wire *)

Lemma unsigned_of_int n :
  0 < n -> PyStr.unsigned_of_string (PyStr.of_int n) = Some n.
Proof.
  intros Hn. destruct (of_int_digits Hn) as (Hd & Hne & _).
  assert (Hs : PyStr.strip (PyStr.of_int n) = PyStr.of_int n).
  { unfold PyStr.strip.
    rewrite (digits_lstrip _ Hd), (digits_rstrip _ Hd). reflexivity. }
  pose proof (to_int_of_int Hn) as Ht.
  destruct (PyStr.of_int n) as [|c r]; [contradiction|].
  simpl in Hd. apply andb_prop in Hd. destruct Hd as [Hc _].
  rewrite (to_int_digit_head Hc Hs) in Ht. exact Ht.
Qed.

Lemma of_int_negative p :
  PyStr.of_int (Z.neg p) = String "-" (PyStr.of_int (Z.pos p)).
Proof. reflexivity. Qed.

(** The id written for an action and a negative window id is read back, as
    it is for a positive one. *)
Lemma parse_id_of_negative action p :
  In action offered_actions ->
  PyStr.startswith (action ++ ":" ++ PyStr.of_int (Z.neg p)) "error:" = false
  /\ parse_id (action ++ ":" ++ PyStr.of_int (Z.neg p))
     = Some (action, Z.neg p).
Proof.
  intros Ha. assert (Hn : 0 < Z.pos p) by lia.
  destruct (of_int_digits Hn) as (Hd & Hne & _).
  assert (Hsplit : PyStr.split ":" (PyStr.of_int (Z.neg p))
                   = [PyStr.of_int (Z.neg p)]).
  { rewrite of_int_negative. simpl. rewrite (digits_split _ Hd).
    reflexivity. }
  assert (Hint : PyStr.to_int (PyStr.of_int (Z.neg p)) = Some (Z.neg p)).
  { rewrite of_int_negative. unfold PyStr.to_int, PyStr.strip.
    simpl PyStr.lstrip. simpl PyStr.rstrip.
    rewrite (digits_rstrip _ Hd).
    destruct (PyStr.of_int (Z.pos p)) as [|c r] eqn:E; [contradiction|].
    rewrite <- E, (unsigned_of_int Hn). reflexivity. }
  revert Hsplit Hint. generalize (PyStr.of_int (Z.neg p)) as t.
  intros t Hsplit Hint.
  unfold parse_id, offered_actions in *.
  simpl in Ha. destruct Ha as [<-|[<-|[<-|[<-|[]]]]];
    (split; [reflexivity|]); simpl; rewrite Hsplit, Hint; reflexivity.
Qed.

Section UnfitIds.

Variable bus : list (call * reply) -> call -> reply.
Variable repr_container : json -> string.

(** The search does not check window ids.  For a window whose id is an
    integer outside 0..4294967295 it yields its results as for any other
    window, and launching any of these results raises OverflowError, without
    a call on the bus and without a log record. *)
Theorem unfit_id_offered_then_raises (W : Type) (window : W)
        search_term win r n s :
  In r (fst (window_results repr_container search_term win)) ->
  id_of win = JInt n ->
  ~ 0 <= n <= uint32_max ->
  launch bus window (SearchResult.id r) s = (Raise OverflowError, s).
Proof.
  intros Hr Hid Hn. apply window_results_ids in Hr.
  destruct Hr as (_ & action & Ha & ->). rewrite Hid. simpl format.
  destruct n as [|p|p].
  - exfalso. apply Hn. unfold uint32_max. lia.
  - assert (Hpos : 0 < Z.pos p) by lia.
    destruct (parse_id_of_int Ha Hpos) as (He & Hp).
    apply (launch_out_of_range bus window _ s He Hp Hn).
  - destruct (parse_id_of_negative p Ha) as (He & Hp).
    apply (launch_out_of_range bus window _ s He Hp Hn).
Qed.

End UnfitIds.

Lemma unfit_id_offered_then_raises_witness :
  let win := JObj [("id", JInt 4294967296); ("title", JStr "Big")] in
  let r := SearchResult.Make "activate:4294967296" "Big"
             "Activate | Class: unknown" "unknown" 100 false 0 in
  In r (fst (window_results Sample.repr "big" win)) /\
  id_of win = JInt 4294967296 /\
  ~ 0 <= 4294967296 <= uint32_max /\
  launch Sample.bus tt (SearchResult.id r) Sample.connected
    = (Raise OverflowError, Sample.connected).
Proof.
  intros win r.
  assert (Hin : In r (fst (window_results Sample.repr "big" win)))
    by (left; reflexivity).
  assert (Hn : ~ 0 <= 4294967296 <= uint32_max)
    by (unfold uint32_max; lia).
  split; [exact Hin|]. split; [reflexivity|]. split; [exact Hn|].
  apply (@unfit_id_offered_then_raises Sample.bus Sample.repr unit tt "big"
           win r 4294967296 Sample.connected Hin eq_refl Hn).
Defined.
